(** * CameraControlEnv: the pan/tilt camera environment of rl_utils/CameraEnviroment.py

    A shallow embedding of the class [CameraControlEnv] and of its methods
    [__init__], [reset] and [step], followed by the properties of the
    environment that the specification states.

    Conventions of the embedding.
    - Python integers are [Z]; Python and numpy floats are the kernel's
      binary64 numbers ([PrimFloat.float]), so that sums, quotients and
      comparisons round exactly as IEEE 754 double precision does.  The
      power [x ** 2] is the rounded product [x * x].  The integer [0] that
      [step] assigns to [reward] below the threshold is the float [0].
    - An object attribute is a field of the record [CameraControlEnv]; the
      attributes [tilts], [pans] and [mean_vector] are assigned once in
      [__init__] and never again, and are constants here.
    - numpy's process-wide generator is the second component of a [world];
      a method is a computation [M A] on worlds that ends in a value or in a
      raised exception, and in both cases leaves the world it has reached. *)

From Stdlib Require Import ZArith List Lia Bool.
From Stdlib Require Import Floats.PrimFloat Numbers.Cyclic.Int63.Uint63.
From stdpp Require Import gmap strings list pretty.

Set Warnings "-inexact-float".
Local Open Scope Z_scope.

(** ** Exceptions and results *)

Inductive exn : Type :=
  | AssertionError
  | IndexError
  | KeyError
  | ValueError.

Inductive result (A : Type) : Type :=
  | Ok (a : A)
  | Raise (e : exn).
Arguments Ok {A} a.
Arguments Raise {A} e.

Definition is_ok {A : Type} (r : result A) : bool :=
  match r with Ok _ => true | Raise _ => false end.

(** ** Python sequences *)

Module Py.

(** The position that the subscript [i] denotes in a sequence of length
    [n]: a negative subscript counts from the end. *)
Definition position (n : nat) (i : Z) : option nat :=
  if (0 <=? i) && (i <? Z.of_nat n) then Some (Z.to_nat i)
  else if (i <? 0) && (- Z.of_nat n <=? i) then Some (Z.to_nat (Z.of_nat n + i))
  else None.

(** [l[i]] *)
Definition getitem {A : Type} (l : list A) (i : Z) : result A :=
  match position (length l) i with
  | Some k => match l !! k with Some x => Ok x | None => Raise IndexError end
  | None => Raise IndexError
  end.

(** [l[i] = v] *)
Definition setitem {A : Type} (l : list A) (i : Z) (v : A) : result (list A) :=
  match position (length l) i with
  | Some k => Ok (<[k := v]> l)
  | None => Raise IndexError
  end.

(** [l.append(v)] *)
Definition append {A : Type} (l : list A) (v : A) : list A := l ++ [v].

(** [len(l)] *)
Definition len {A : Type} (l : list A) : Z := Z.of_nat (length l).

(** [str(n)] for an integer *)
Definition str (n : Z) : string := pretty n.

End Py.

(** ** numpy *)

Module Np.

(** [np.abs] on a sequence of integers *)
Definition abs (l : list Z) : list Z := map Z.abs l.

(** [np.max]: the largest entry; an empty array has none. *)
Definition max (l : list Z) : result Z :=
  match l with
  | [] => Raise ValueError
  | x :: r => Ok (fold_left Z.max r x)
  end.

(** The generator behind [np.random]: an unbounded supply of raw draws and
    the number of draws consumed so far. *)
Record RandomState : Type := mkRandomState {
  supply : nat -> Z;
  consumed : nat
}.

(** [np.random.randint(low, high)]: an integer of [[low, high)]. *)
Definition randint (low high : Z) (g : RandomState) : Z * RandomState :=
  (low + supply g (consumed g) mod (high - low),
   mkRandomState (supply g) (S (consumed g))).

End Np.

(** ** Floats *)

Module F.

(** [float(n)], and the conversion of an integer operand of a float
    operation. *)
Definition of_Z (z : Z) : float :=
  if z <? 0 then (- of_uint63 (Uint63.of_Z (- z)))%float
  else of_uint63 (Uint63.of_Z z).

(** [x ** 2] *)
Definition sqr (x : float) : float := (x * x)%float.

(** [x > y] *)
Definition gtb (x y : float) : bool := (y <? x)%float.

End F.

(** ** Images and the dataset *)

(** A pixel is its three channels, an image its rows of pixels. *)
Definition pixel : Type := Z * Z * Z.
Definition image : Type := list (list pixel).

(** [np.zeros((h, w, 3))] *)
Definition zeros (h w : nat) : image := replicate h (replicate w (0, 0, 0)).

(** Tuple keys [(tilt, pan)]; values [(observation, render_observation)]. *)
Abbreviation views := (gmap (Z * Z) (image * image)).
Abbreviation dataset := (gmap Z (gmap (Z * Z) (image * image))).

(** ** The environment *)

(** List of possible tilts and pans *)
Definition tilts : list Z := [-60; -30; -15; 0; 15; 30; 60].
Definition pans : list Z := [-90; -75; -60; -45; -30; -15; 0; 15; 30; 45; 60; 75; 90].

(** Mean RGB vector for normalizing input frames *)
Definition mean_vector : pixel := (109, 114, 131).

(** [frame - self.mean_vector], broadcast over the channel axis *)
Definition sub_mean (frame : image) : image :=
  map (map (fun px : pixel =>
              let '(r, g, b) := px in
              let '(mr, mg, mb) := mean_vector in
              (r - mr, g - mg, b - mb))) frame.

Record CameraControlEnv : Type := mkEnv {
  persons : dataset;
  testing : bool;
  current_tilt : Z;
  current_pan : Z;
  current_person : Z;
  error_memory : list float;
  observation : image;
  render_observation : image;
  epoch_counter : Z;
  iteration_counter : Z;
  init_pan_error : list Z;
  init_tilt_error : list Z;
  final_pan_error : list Z;
  final_tilt_error : list Z;
  current_state_text : string;
  action_text : string;
  interactive : bool
}.

Record world : Type := mkWorld {
  env : CameraControlEnv;
  np_random : Np.RandomState
}.

(** ** Computations *)

Definition M (A : Type) : Type := world -> result A * world.

Definition ret {A : Type} (a : A) : M A := fun w => (Ok a, w).

Definition bind {A B : Type} (m : M A) (k : A -> M B) : M B :=
  fun w =>
    match m w with
    | (Ok a, w') => k a w'
    | (Raise e, w') => (Raise e, w')
    end.

Definition raise {A : Type} (e : exn) : M A := fun w => (Raise e, w).

Definition lift {A : Type} (r : result A) : M A := fun w => (r, w).

(** Reading the object. *)
Definition self {A : Type} (field : CameraControlEnv -> A) : M A :=
  fun w => (Ok (field (env w)), w).

(** Changing the object. *)
Definition update (f : CameraControlEnv -> CameraControlEnv) : M unit :=
  fun w => (Ok tt, mkWorld (f (env w)) (np_random w)).

(** Drawing from the generator. *)
Definition randint (low high : Z) : M Z :=
  fun w =>
    let '(v, g) := Np.randint low high (np_random w) in
    (Ok v, mkWorld (env w) g).

Declare Scope camera_scope.
Delimit Scope camera_scope with camera.
Notation "x <- m ;; k" := (bind m (fun x => k))
  (at level 20, m at level 99, k at level 200, only parsing) : camera_scope.
Notation "m ;; k" := (bind m (fun _ => k))
  (at level 100, k at level 200, right associativity, only parsing) : camera_scope.
Local Open Scope camera_scope.

(** Assignments [self.field = v]. *)
Section Assign.

Definition set_current_tilt (v : Z) (e : CameraControlEnv) : CameraControlEnv :=
  mkEnv (persons e) (testing e) v (current_pan e) (current_person e)
    (error_memory e) (observation e) (render_observation e) (epoch_counter e)
    (iteration_counter e) (init_pan_error e) (init_tilt_error e)
    (final_pan_error e) (final_tilt_error e) (current_state_text e)
    (action_text e) (interactive e).

Definition set_current_pan (v : Z) (e : CameraControlEnv) : CameraControlEnv :=
  mkEnv (persons e) (testing e) (current_tilt e) v (current_person e)
    (error_memory e) (observation e) (render_observation e) (epoch_counter e)
    (iteration_counter e) (init_pan_error e) (init_tilt_error e)
    (final_pan_error e) (final_tilt_error e) (current_state_text e)
    (action_text e) (interactive e).

Definition set_current_person (v : Z) (e : CameraControlEnv) : CameraControlEnv :=
  mkEnv (persons e) (testing e) (current_tilt e) (current_pan e) v
    (error_memory e) (observation e) (render_observation e) (epoch_counter e)
    (iteration_counter e) (init_pan_error e) (init_tilt_error e)
    (final_pan_error e) (final_tilt_error e) (current_state_text e)
    (action_text e) (interactive e).

Definition set_error_memory (v : list float) (e : CameraControlEnv) : CameraControlEnv :=
  mkEnv (persons e) (testing e) (current_tilt e) (current_pan e) (current_person e)
    v (observation e) (render_observation e) (epoch_counter e)
    (iteration_counter e) (init_pan_error e) (init_tilt_error e)
    (final_pan_error e) (final_tilt_error e) (current_state_text e)
    (action_text e) (interactive e).

Definition set_observation (v : image) (e : CameraControlEnv) : CameraControlEnv :=
  mkEnv (persons e) (testing e) (current_tilt e) (current_pan e) (current_person e)
    (error_memory e) v (render_observation e) (epoch_counter e)
    (iteration_counter e) (init_pan_error e) (init_tilt_error e)
    (final_pan_error e) (final_tilt_error e) (current_state_text e)
    (action_text e) (interactive e).

Definition set_render_observation (v : image) (e : CameraControlEnv) : CameraControlEnv :=
  mkEnv (persons e) (testing e) (current_tilt e) (current_pan e) (current_person e)
    (error_memory e) (observation e) v (epoch_counter e)
    (iteration_counter e) (init_pan_error e) (init_tilt_error e)
    (final_pan_error e) (final_tilt_error e) (current_state_text e)
    (action_text e) (interactive e).

Definition set_epoch_counter (v : Z) (e : CameraControlEnv) : CameraControlEnv :=
  mkEnv (persons e) (testing e) (current_tilt e) (current_pan e) (current_person e)
    (error_memory e) (observation e) (render_observation e) v
    (iteration_counter e) (init_pan_error e) (init_tilt_error e)
    (final_pan_error e) (final_tilt_error e) (current_state_text e)
    (action_text e) (interactive e).

Definition set_iteration_counter (v : Z) (e : CameraControlEnv) : CameraControlEnv :=
  mkEnv (persons e) (testing e) (current_tilt e) (current_pan e) (current_person e)
    (error_memory e) (observation e) (render_observation e) (epoch_counter e)
    v (init_pan_error e) (init_tilt_error e)
    (final_pan_error e) (final_tilt_error e) (current_state_text e)
    (action_text e) (interactive e).

Definition set_init_pan_error (v : list Z) (e : CameraControlEnv) : CameraControlEnv :=
  mkEnv (persons e) (testing e) (current_tilt e) (current_pan e) (current_person e)
    (error_memory e) (observation e) (render_observation e) (epoch_counter e)
    (iteration_counter e) v (init_tilt_error e)
    (final_pan_error e) (final_tilt_error e) (current_state_text e)
    (action_text e) (interactive e).

Definition set_init_tilt_error (v : list Z) (e : CameraControlEnv) : CameraControlEnv :=
  mkEnv (persons e) (testing e) (current_tilt e) (current_pan e) (current_person e)
    (error_memory e) (observation e) (render_observation e) (epoch_counter e)
    (iteration_counter e) (init_pan_error e) v
    (final_pan_error e) (final_tilt_error e) (current_state_text e)
    (action_text e) (interactive e).

Definition set_final_pan_error (v : list Z) (e : CameraControlEnv) : CameraControlEnv :=
  mkEnv (persons e) (testing e) (current_tilt e) (current_pan e) (current_person e)
    (error_memory e) (observation e) (render_observation e) (epoch_counter e)
    (iteration_counter e) (init_pan_error e) (init_tilt_error e)
    v (final_tilt_error e) (current_state_text e)
    (action_text e) (interactive e).

Definition set_final_tilt_error (v : list Z) (e : CameraControlEnv) : CameraControlEnv :=
  mkEnv (persons e) (testing e) (current_tilt e) (current_pan e) (current_person e)
    (error_memory e) (observation e) (render_observation e) (epoch_counter e)
    (iteration_counter e) (init_pan_error e) (init_tilt_error e)
    (final_pan_error e) v (current_state_text e)
    (action_text e) (interactive e).

Definition set_current_state_text (v : string) (e : CameraControlEnv) : CameraControlEnv :=
  mkEnv (persons e) (testing e) (current_tilt e) (current_pan e) (current_person e)
    (error_memory e) (observation e) (render_observation e) (epoch_counter e)
    (iteration_counter e) (init_pan_error e) (init_tilt_error e)
    (final_pan_error e) (final_tilt_error e) v
    (action_text e) (interactive e).

Definition set_action_text (v : string) (e : CameraControlEnv) : CameraControlEnv :=
  mkEnv (persons e) (testing e) (current_tilt e) (current_pan e) (current_person e)
    (error_memory e) (observation e) (render_observation e) (epoch_counter e)
    (iteration_counter e) (init_pan_error e) (init_tilt_error e)
    (final_pan_error e) (final_tilt_error e) (current_state_text e)
    v (interactive e).

End Assign.

(** [self.persons[self.current_person][(tilt, pan)]] *)
Definition lookup_views (d : dataset) (person tilt pan : Z) : result (image * image) :=
  match d !! person with
  | Some vs => match vs !! (tilt, pan) with
               | Some v => Ok v
               | None => Raise KeyError
               end
  | None => Raise KeyError
  end.

(** [str(tilt) + '/' + str(pan)] *)
Definition state_text (tilt pan : Z) : string :=
  Py.str tilt +:+ "/" +:+ Py.str pan.

(** [np.random.randint(20, 30)] when testing, [np.random.randint(0, 20)]
    otherwise. *)
Definition draw_person (test : bool) : M Z :=
  if test then randint 20 30 else randint 0 20.

(** *** [__init__]

    The dataset is the unpickled file; the fresh object comes with the
    generator as the draw of the first person has left it. *)
Definition init (data : dataset) (test inter : bool) (g : Np.RandomState)
  : result world :=
  let current_tilt0 := 0 in
  let current_pan0 := 0 in
  let '(person, g') :=
    if test then Np.randint 20 30 g else Np.randint 0 20 g in
  match Py.getitem tilts current_tilt0, Py.getitem pans current_pan0 with
  | Ok tilt, Ok pan =>
      Ok (mkWorld
            (mkEnv data test current_tilt0 current_pan0 person
               [] (zeros 64 64) (zeros 256 256) (-1) 0 [] [] [] []
               (state_text tilt pan) "None" inter)
            g')
  | Raise e, _ => Raise e
  | _, Raise e => Raise e
  end.

(** *** [reset] *)
Definition reset : M image :=
  (* Select a random person *)
  test <- self testing ;;
  person <- draw_person test ;;
  update (set_current_person person) ;;
  (* Reset statistics *)
  update (set_error_memory []) ;;
  (* Select a random tilt and pan to init the enviroment *)
  ct <- randint 0 (Py.len tilts) ;;
  update (set_current_tilt ct) ;;
  cp <- randint 0 (Py.len pans) ;;
  update (set_current_pan cp) ;;
  (* Retrieve observation *)
  tilt <- lift (Py.getitem tilts ct) ;;
  pan <- lift (Py.getitem pans cp) ;;
  data <- self persons ;;
  v <- lift (lookup_views data person tilt pan) ;;
  update (set_observation (fst v)) ;;
  update (set_render_observation (snd v)) ;;
  update (set_observation (sub_mean (fst v))) ;;
  (* Update statistics *)
  epoch <- self epoch_counter ;;
  update (set_epoch_counter (epoch + 1)) ;;
  update (set_iteration_counter 0) ;;
  (* Keep the initial and the final errors for each episode *)
  ipe <- self init_pan_error ;;
  update (set_init_pan_error (Py.append ipe pan)) ;;
  ite <- self init_tilt_error ;;
  update (set_init_tilt_error (Py.append ite tilt)) ;;
  fpe <- self final_pan_error ;;
  update (set_final_pan_error (Py.append fpe pan)) ;;
  fte <- self final_tilt_error ;;
  update (set_final_tilt_error (Py.append fte tilt)) ;;
  (* Reset text *)
  update (set_current_state_text (state_text tilt pan)) ;;
  update (set_action_text "None") ;;
  self observation.

(** *** [step] *)

(** Perform an action *)
Definition perform (action : Z) : M unit :=
  if action =? 0 then ret tt
  else if action =? 1 then (* down *)
    ct <- self current_tilt ;;
    update (set_current_tilt (Z.max 0 (ct - 1)))
  else if action =? 2 then (* up *)
    ct <- self current_tilt ;;
    update (set_current_tilt (Z.min (Py.len tilts - 1) (ct + 1)))
  else if action =? 3 then (* right *)
    cp <- self current_pan ;;
    update (set_current_pan (Z.max 0 (cp - 1)))
  else if action =? 4 then (* left *)
    cp <- self current_pan ;;
    update (set_current_pan (Z.min (Py.len pans - 1) (cp + 1)))
  else raise AssertionError.

(** Prepare the text for the observation.  The local name is bound in the
    five branches only; any other action has been refused by [perform]. *)
Definition text_of_action (action : Z) : string :=
  if action =? 0 then "Stay"
  else if action =? 1 then "Up"
  else if action =? 2 then "Down"
  else if action =? 3 then "Left"
  else "Right".

(** Calculate error *)
Definition calc_error (tilt pan : Z) : result float :=
  match Np.max (Np.abs tilts), Np.max (Np.abs pans) with
  | Ok mt, Ok mp =>
      Ok (F.sqr (F.of_Z tilt / F.of_Z mt) + F.sqr (F.of_Z pan / F.of_Z mp))%float
  | Raise e, _ => Raise e
  | _, Raise e => Raise e
  end.

(** Calculate reward *)
Definition raw_reward (error : float) : float := ((2 - error) / 2)%float.

Definition calc_reward (error : float) : float :=
  let reward := raw_reward error in
  if (reward <? 0.95)%float then 0%float
  else ((reward - 0.95) / 0.05)%float.

(** [len(mem) > 2 and cmp(mem[-2], mem[-1])] *)
Definition trend (cmp : float -> float -> bool) (mem : list float) : result bool :=
  if 2 <? Py.len mem then
    match Py.getitem mem (-2), Py.getitem mem (-1) with
    | Ok before, Ok now => Ok (cmp before now)
    | Raise e, _ => Raise e
    | _, Raise e => Raise e
    end
  else Ok false.

(** Add reward/punishment for correct/wrong movements *)
Definition shape (mem : list float) (reward : float) : result float :=
  match trend F.gtb mem with
  | Ok true => Ok (reward + 0.1)%float
  | Ok false =>
      match trend PrimFloat.ltb mem with
      | Ok true => Ok (reward + -0.15)%float
      | Ok false => Ok reward
      | Raise e => Raise e
      end
  | Raise e => Raise e
  end.

Abbreviation info := (gmap string Z).
Definition outcome : Type := image * float * bool * info.

Definition step (action : Z) : M outcome :=
  perform action ;;
  (* Retrieve observation *)
  ct <- self current_tilt ;;
  cp <- self current_pan ;;
  tilt <- lift (Py.getitem tilts ct) ;;
  pan <- lift (Py.getitem pans cp) ;;
  update (set_current_state_text (state_text tilt pan)) ;;
  update (set_action_text (text_of_action action)) ;;
  (* Update statistics for the current episode *)
  fpe <- self final_pan_error ;;
  fpe' <- lift (Py.setitem fpe (-1) pan) ;;
  update (set_final_pan_error fpe') ;;
  fte <- self final_tilt_error ;;
  fte' <- lift (Py.setitem fte (-1) tilt) ;;
  update (set_final_tilt_error fte') ;;
  data <- self persons ;;
  person <- self current_person ;;
  v <- lift (lookup_views data person tilt pan) ;;
  update (set_observation (fst v)) ;;
  update (set_render_observation (snd v)) ;;
  update (set_observation (sub_mean (fst v))) ;;
  (* Calculate error *)
  error <- lift (calc_error tilt pan) ;;
  mem <- self error_memory ;;
  update (set_error_memory (Py.append mem error)) ;;
  (* Calculate reward *)
  mem' <- self error_memory ;;
  reward <- lift (shape mem' (calc_reward error)) ;;
  it <- self iteration_counter ;;
  update (set_iteration_counter (it + 1)) ;;
  obs <- self observation ;;
  ret (obs, reward, false, (∅ : info)).

(** *** [render] *)

(** [frame + self.mean_vector], broadcast over the channel axis *)
Definition add_mean (frame : image) : image :=
  map (map (fun px : pixel =>
              let '(r, g, b) := px in
              let '(mr, mg, mb) := mean_vector in
              (r + mr, g + mg, b + mb))) frame.

(** [np.uint8(frame)]: every channel modulo 256 *)
Definition uint8 (frame : image) : image :=
  map (map (fun px : pixel =>
              let '(r, g, b) := px in (r mod 256, g mod 256, b mod 256))) frame.

(** What [cv2] is handed: an image with the texts [putText] has drawn on it
    and where (font, scale, colour and thickness are the same in both calls
    of [render]), the windows [imshow] fills, the delay of [waitKey], and the
    line [print] writes. *)
Record picture : Type := mkPicture {
  pixels : image;
  drawn_texts : list (string * (Z * Z))
}.

Inductive event : Type :=
  | Imshow (window : string) (p : picture)
  | Print (line : string)
  | WaitKey (delay : Z).

(** [cv2.putText(img, text, org, ...)] *)
Definition put_text (text : string) (org : Z * Z) (p : picture) : picture :=
  mkPicture (pixels p) (drawn_texts p ++ [(text, org)]).

(** The calls [render] makes, in order.  The texts go on a copy, so the
    object keeps its image as it is. *)
Definition render : M (list event) :=
  shown <- self render_observation ;;
  let img := mkPicture shown [] in
  state <- self current_state_text ;;
  let img := put_text ("Tilt/Pan: " +:+ state) (10, 25) img in
  act <- self action_text ;;
  let img := put_text ("Sel. Action: " +:+ act) (10, 50) img in
  obs <- self observation ;;
  inter <- self interactive ;;
  ret ([Imshow "View" img; Imshow "CNN Input" (mkPicture (uint8 (add_mean obs)) [])]
       ++ (if inter : bool then [Print "Press any key to proceed"; WaitKey 0]
           else [WaitKey 1])).

(** ** Calls made by a training loop *)

(** An episode is a [reset] followed by [step]s; the loop stops at the first
    exception. *)
Fixpoint steps (actions : list Z) : M unit :=
  match actions with
  | [] => ret tt
  | a :: rest => step a ;; steps rest
  end.

(** The angles the camera is at. *)
Definition angles : M (Z * Z) :=
  ct <- self current_tilt ;;
  cp <- self current_pan ;;
  tilt <- lift (Py.getitem tilts ct) ;;
  pan <- lift (Py.getitem pans cp) ;;
  ret (tilt, pan).

(** One episode, watched from outside: the angles read right after [reset]
    and those read after the last [step]. *)
Definition episode (actions : list Z) : M ((Z * Z) * (Z * Z)) :=
  reset ;;
  first <- angles ;;
  steps actions ;;
  last <- angles ;;
  ret (first, last).

Fixpoint episodes (plan : list (list Z)) : M (list ((Z * Z) * (Z * Z))) :=
  match plan with
  | [] => ret []
  | actions :: rest =>
      seen <- episode actions ;;
      others <- episodes rest ;;
      ret (seen :: others)
  end.

(** Calls whose exceptions the caller catches: the world goes on from where
    the failed call has left it. *)
Fixpoint attempts (actions : list Z) (w : world) : world :=
  match actions with
  | [] => w
  | a :: rest => attempts rest (snd (step a w))
  end.

(** ** A dataset and generators to run the environment on *)

Module Sample.

(** One-pixel frames that tell person and angles apart. *)
Definition frame (person tilt pan : Z) : image :=
  [[(person + 109, tilt + 114, pan + 131)]].

Definition views_of (person : Z) : views :=
  list_to_map
    (flat_map (fun t => map (fun p => ((t, p), (frame person t p, frame person p t))) pans)
       tilts).

(** Thirty persons, each at every cell of the grid. *)
Definition data : dataset :=
  list_to_map (map (fun k => (k, views_of k)) (seqZ 0 30)).

(** A generator whose raw draws are the given ones, then zeros. *)
Definition gen (draws : list Z) : Np.RandomState :=
  Np.mkRandomState (fun n => nth n draws 0) 0.

(** The raw draws of the runs below. *)
Definition draws : list Z := [5; 7; 1; 0; 3; 4; 6; 25; 2; 12].

(** What [__init__] builds from [data] in training mode when the first raw
    draw is 5. *)
Definition fresh : world :=
  mkWorld
    (mkEnv data false 0 0 5 [] (zeros 64 64) (zeros 256 256) (-1) 0
       [] [] [] [] "-60/-90" "None" false)
    (Np.mkRandomState (fun n => nth n draws 0) 1).

(** The same object after a [reset] that puts person 7 at tilt -30, pan -90. *)
Definition started : world := snd (reset fresh).

(** ... and after two [step]s that stay there. *)
Definition settled : world := snd (steps [0; 0] started).

End Sample.

(** A dataset with gaps: person 7 has no view at tilt -60, pan -90, and
    person 3 is missing altogether. *)
Module Gaps.

Definition data : dataset :=
  delete 3 (<[7 := delete (-60, -90) (Sample.views_of 7)]> Sample.data).

Definition fresh : world :=
  mkWorld
    (mkEnv data false 0 0 5 [] (zeros 64 64) (zeros 256 256) (-1) 0
       [] [] [] [] "-60/-90" "None" false)
    (Np.mkRandomState (fun n => nth n Sample.draws 0) 1).

(** After a [reset] that puts person 7 at tilt -30, pan -90. *)
Definition started : world := snd (reset fresh).


End Gaps.

(** ** Notions used in the statements *)

(** The actions of the action space [spaces.Discrete(5)]. *)
Definition valid_action (a : Z) : Prop := 0 <= a <= 4.

(** The indices denote a cell of the grid. *)
Definition in_grid (e : CameraControlEnv) : Prop :=
  0 <= current_tilt e < Py.len tilts /\ 0 <= current_pan e < Py.len pans.

(** The pool a person is drawn from: [[20, 30)] when testing, [[0, 20)]
    when training. *)
Definition pool (test : bool) : Z * Z := if test then (20, 30) else (0, 20).

(** The three draws of a [reset], in the order they are made. *)
Definition drawn (test : bool) (g : Np.RandomState) : Z * Z * Z * Np.RandomState :=
  let '(person, g1) := Np.randint (fst (pool test)) (snd (pool test)) g in
  let '(ct, g2) := Np.randint 0 (Py.len tilts) g1 in
  let '(cp, g3) := Np.randint 0 (Py.len pans) g2 in
  (person, ct, cp, g3).

(** The pair of indices. *)
Definition indices (e : CameraControlEnv) : Z * Z := (current_tilt e, current_pan e).

(** The action [a] pushes against the edge of the grid the camera is at. *)
Definition at_boundary (a : Z) (e : CameraControlEnv) : Prop :=
  a = 1 /\ current_tilt e = 0 \/
  a = 2 /\ current_tilt e = Py.len tilts - 1 \/
  a = 3 /\ current_pan e = 0 \/
  a = 4 /\ current_pan e = Py.len pans - 1.

(** No [reset] has appended to the final-error sequences yet. *)
Definition unstarted (e : CameraControlEnv) : Prop :=
  final_pan_error e = [] /\ final_tilt_error e = [] /\ in_grid e.

(** A computation that reads and writes the object only: run with another
    generator, it returns the same result, leaves the same object, and hands
    the generator back as it got it. *)
Definition env_only {A : Type} (m : M A) : Prop :=
  forall e g g',
    m (mkWorld e g') =
      (fst (m (mkWorld e g)), mkWorld (env (snd (m (mkWorld e g)))) g').

(** The maximum absolute value in a grid. *)
Definition max_abs (grid : list Z) : Z :=
  fold_right (fun x m => Z.max (Z.abs x) m) 0 grid.

(** The normalized squared error of a pair of angles, as the specification
    words it. *)
Definition normalized_squared_error (tilt pan : Z) : float :=
  (F.sqr (F.of_Z tilt / F.of_Z (max_abs tilts))
   + F.sqr (F.of_Z pan / F.of_Z (max_abs pans)))%float.

(** A test that holds at every cell of the grid. *)
Definition on_grid (test : Z -> Z -> bool) : bool :=
  forallb (fun t => forallb (test t) pans) tilts.

(** The error of a cell lies in [[0, 2]]. *)
Definition error_in_range (tilt pan : Z) : bool :=
  let error := normalized_squared_error tilt pan in
  ((0 <=? error) && (error <=? 2))%float.

(** The reward of a cell lies in [[-0.15, 1.15]], with or without bonus. *)
Definition within (reward : float) : bool :=
  ((-0.15 <=? reward) && (reward <=? 1.15))%float.

Definition reward_in_range (tilt pan : Z) : bool :=
  let base := calc_reward (normalized_squared_error tilt pan) in
  within base && within (base + 0.1)%float && within (base + -0.15)%float.

(** The dataset has a view of every person of the pool at every cell. *)
Definition covers (d : dataset) (test : bool) : Prop :=
  forall person tilt pan,
    fst (pool test) <= person < snd (pool test) ->
    tilt ∈ tilts -> pan ∈ pans ->
    exists v, lookup_views d person tilt pan = Ok v.

Definition coversb (d : dataset) (test : bool) : bool :=
  forallb (fun person => on_grid (fun t p => is_ok (lookup_views d person t p)))
    (seqZ (fst (pool test)) (snd (pool test) - fst (pool test))).

(** The last entries of the final-error sequences are the angles the camera
    is at; the entries before them are [ft] and [fp]. *)
Definition tracking (ft fp : list Z) (e : CameraControlEnv) : Prop :=
  exists tilt pan,
    final_tilt_error e = ft ++ [tilt] /\
    final_pan_error e = fp ++ [pan] /\
    Py.getitem tilts (current_tilt e) = Ok tilt /\
    Py.getitem pans (current_pan e) = Ok pan.

(** The object is the one of dataset [d] and mode [test], and a [reset] has
    prepared it for [step]s. *)
Definition prepared (d : dataset) (test : bool) (e : CameraControlEnv) : Prop :=
  persons e = d /\ testing e = test /\ in_grid e /\
  final_pan_error e <> [] /\ final_tilt_error e <> [] /\
  fst (pool test) <= current_person e < snd (pool test).

(** Of two cells in one column of the grid, the one with the smaller
    absolute tilt has the strictly smaller error; likewise in one row; and no
    error is strictly smaller than itself. *)
Definition smaller (e2 e1 : float) : bool :=
  ((e2 <? e1) && negb (e1 <? e2))%float.

Definition tilt_orders_error (t1 t2 p : Z) : bool :=
  if Z.abs t2 <? Z.abs t1
  then smaller (normalized_squared_error t2 p) (normalized_squared_error t1 p)
  else true.

Definition pan_orders_error (t p1 p2 : Z) : bool :=
  if Z.abs p2 <? Z.abs p1
  then smaller (normalized_squared_error t p2) (normalized_squared_error t p1)
  else true.

Definition distance_orders_error : bool :=
  forallb (fun t1 =>
             forallb (fun t2 => forallb (tilt_orders_error t1 t2) pans) tilts) tilts
  && forallb (fun t =>
                forallb (fun p1 => forallb (pan_orders_error t p1) pans) pans) tilts
  && on_grid (fun t p =>
                negb (normalized_squared_error t p <? normalized_squared_error t p)%float).

(** The step has brought the camera closer to the centre along one axis. *)
Definition closer (t1 p1 t2 p2 : Z) : Prop :=
  p2 = p1 /\ Z.abs t2 < Z.abs t1 \/ t2 = t1 /\ Z.abs p2 < Z.abs p1.

(** The cells at most one grid step from the centre on each axis. *)
Definition near_centre (t p : Z) : bool := (Z.abs t <=? 15) && (Z.abs p <=? 15).

(** At a cell: the raw reward is below the threshold exactly away from the
    centre, the reward is positive near it, and nowhere above the reward of
    the centre, which no other cell reaches. *)
Definition reward_is_sparse (t p : Z) : bool :=
  let error := normalized_squared_error t p in
  let top := calc_reward (normalized_squared_error 0 0) in
  Bool.eqb (raw_reward error <? 0.95)%float (negb (near_centre t p))
  && (if near_centre t p then (0 <? calc_reward error)%float else true)
  && (calc_reward error <=? top)%float
  && (if (t =? 0) && (p =? 0) then true else (calc_reward error <? top)%float).

(** The channels of every pixel are bytes, as in an image [cv2] has read. *)
Definition bytes (frame : image) : Prop :=
  Forall (Forall (fun px : pixel =>
                    let '(r, g, b) := px in
                    0 <= r < 256 /\ 0 <= g < 256 /\ 0 <= b < 256)) frame.

(** The state text and the last final errors show the angles the camera is
    at. *)
Definition in_sync (e : CameraControlEnv) : Prop :=
  exists tilt pan,
    Py.getitem tilts (current_tilt e) = Ok tilt /\
    Py.getitem pans (current_pan e) = Ok pan /\
    last (final_tilt_error e) = Some tilt /\
    last (final_pan_error e) = Some pan /\
    current_state_text e = state_text tilt pan.

(** The bounds [__init__] declares for the observation space,
    [spaces.Box(-127 * ones, 127 * ones)], and an image within them. *)
Definition observation_space : Z * Z := (-127, 127).

Definition within_space (frame : image) : Prop :=
  Forall (Forall (fun px : pixel =>
                    let '(r, g, b) := px in
                    fst observation_space <= r <= snd observation_space /\
                    fst observation_space <= g <= snd observation_space /\
                    fst observation_space <= b <= snd observation_space)) frame.

(** * Properties *)

(** ** Sequences *)

Lemma position_Some (n : nat) (i : Z) (k : nat) :
  Py.position n i = Some k ->
  (k < n)%nat /\ (Z.of_nat k = i \/ Z.of_nat k = Z.of_nat n + i /\ i < 0).
Proof.
  unfold Py.position.
  destruct (0 <=? i) eqn:H0, (i <? Z.of_nat n) eqn:H1; simpl;
    destruct (i <? 0) eqn:H2, (- Z.of_nat n <=? i) eqn:H3; simpl;
    intros [= <-]; lia.
Qed.

Lemma position_in_range (n : nat) (i : Z) :
  0 <= i < Z.of_nat n -> Py.position n i = Some (Z.to_nat i).
Proof.
  intros H. unfold Py.position.
  replace (0 <=? i) with true by (symmetry; apply Z.leb_le; lia).
  replace (i <? Z.of_nat n) with true by (symmetry; apply Z.ltb_lt; lia).
  reflexivity.
Qed.

Lemma position_last (n : nat) :
  Py.position (S n) (-1) = Some n.
Proof.
  unfold Py.position.
  replace (- Z.of_nat (S n) <=? -1) with true by (symmetry; apply Z.leb_le; lia).
  simpl. f_equal. lia.
Qed.

Lemma position_before_last (n : nat) :
  Py.position (S (S n)) (-2) = Some n.
Proof.
  unfold Py.position.
  replace (- Z.of_nat (S (S n)) <=? -2) with true by (symmetry; apply Z.leb_le; lia).
  simpl (_ && _). cbv iota. f_equal. lia.
Qed.

Lemma getitem_elem_of {A : Type} (l : list A) (i : Z) (x : A) :
  Py.getitem l i = Ok x -> x ∈ l.
Proof.
  unfold Py.getitem. destruct (Py.position (length l) i) as [k|]; [|discriminate].
  destruct (l !! k) as [y|] eqn:Hk; [|discriminate].
  intros [= <-]. apply list_elem_of_lookup. eauto.
Qed.

Lemma getitem_in_range {A : Type} (l : list A) (i : Z) :
  0 <= i < Py.len l -> exists x, Py.getitem l i = Ok x /\ l !! Z.to_nat i = Some x.
Proof.
  intros H. unfold Py.getitem, Py.len in *. rewrite position_in_range by exact H.
  destruct (l !! Z.to_nat i) as [x|] eqn:Hx; [eauto|].
  apply lookup_ge_None in Hx. lia.
Qed.

Lemma getitem_last {A : Type} (l : list A) (x : A) :
  Py.getitem (l ++ [x]) (-1) = Ok x.
Proof.
  unfold Py.getitem. rewrite length_app, Nat.add_comm.
  change (length [x] + length l)%nat with (S (length l)).
  rewrite position_last, lookup_app_r by lia.
  rewrite Nat.sub_diag. reflexivity.
Qed.

Lemma getitem_before_last {A : Type} (l : list A) (x y : A) :
  Py.getitem (l ++ [x; y]) (-2) = Ok x.
Proof.
  unfold Py.getitem. rewrite length_app, Nat.add_comm.
  change (length [x; y] + length l)%nat with (S (S (length l))).
  rewrite position_before_last, lookup_app_r by lia.
  rewrite Nat.sub_diag. reflexivity.
Qed.

Lemma setitem_nil {A : Type} (i : Z) (v : A) :
  Py.setitem [] i v = Raise IndexError.
Proof.
  unfold Py.setitem, Py.position.
  change (Z.of_nat (length (@nil A))) with 0. change (- 0) with 0.
  destruct (Z.leb_spec 0 i), (Z.ltb_spec i 0); simpl; try reflexivity; lia.
Qed.

Lemma setitem_last {A : Type} (l : list A) (x v : A) :
  Py.setitem (l ++ [x]) (-1) v = Ok (l ++ [v]).
Proof.
  unfold Py.setitem. rewrite length_app, Nat.add_comm.
  change (length [x] + length l)%nat with (S (length l)).
  rewrite position_last. f_equal.
  rewrite insert_app_r_alt by lia. rewrite Nat.sub_diag. reflexivity.
Qed.

Lemma setitem_length {A : Type} (l l' : list A) (i : Z) (v : A) :
  Py.setitem l i v = Ok l' -> length l' = length l.
Proof.
  unfold Py.setitem. destruct (Py.position (length l) i); [|discriminate].
  intros [= <-]. apply length_insert.
Qed.

Lemma setitem_ok_last {A : Type} (l l' : list A) (v : A) :
  Py.setitem l (-1) v = Ok l' ->
  exists front x, l = front ++ [x] /\ l' = front ++ [v].
Proof.
  destruct l as [|x front _] using rev_ind.
  - rewrite setitem_nil. discriminate.
  - rewrite setitem_last. intros [= <-]. eauto.
Qed.

(** ** The control flow of the methods *)

Ltac run_monad :=
  cbn [fst snd] in *;
  cbv [bind ret raise lift self update env np_random
       persons testing current_tilt current_pan current_person error_memory
       observation render_observation epoch_counter iteration_counter
       init_pan_error init_tilt_error final_pan_error final_tilt_error
       current_state_text action_text interactive
       set_current_tilt set_current_pan set_current_person set_error_memory
       set_observation set_render_observation set_epoch_counter
       set_iteration_counter set_init_pan_error set_init_tilt_error
       set_final_pan_error set_final_tilt_error set_current_state_text
       set_action_text] in *.

(** Projections of assignments, without unfolding an assignment that no
    projection looks into. *)
Ltac read_fields :=
  cbn [fst snd env np_random indices
       persons testing current_tilt current_pan current_person error_memory
       observation render_observation epoch_counter iteration_counter
       init_pan_error init_tilt_error final_pan_error final_tilt_error
       current_state_text action_text interactive
       set_current_tilt set_current_pan set_current_person set_error_memory
       set_observation set_render_observation set_epoch_counter
       set_iteration_counter set_init_pan_error set_init_tilt_error
       set_final_pan_error set_final_tilt_error set_current_state_text
       set_action_text] in *.

Ltac open_world w :=
  let e := fresh "e" in let g := fresh "g" in
  destruct w as [e g]; destruct e.

Ltac split_match :=
  match goal with
  | |- context [match ?x with _ => _ end] => destruct x eqn:?
  | H : context [match ?x with _ => _ end] |- _ => destruct x eqn:?
  end.

Lemma perform_cases (a : Z) (w : world) :
  perform a w =
    if a =? 0 then (Ok tt, w)
    else if a =? 1 then
      (Ok tt, mkWorld (set_current_tilt (Z.max 0 (current_tilt (env w) - 1)) (env w))
                (np_random w))
    else if a =? 2 then
      (Ok tt, mkWorld (set_current_tilt
                         (Z.min (Py.len tilts - 1) (current_tilt (env w) + 1)) (env w))
                (np_random w))
    else if a =? 3 then
      (Ok tt, mkWorld (set_current_pan (Z.max 0 (current_pan (env w) - 1)) (env w))
                (np_random w))
    else if a =? 4 then
      (Ok tt, mkWorld (set_current_pan
                         (Z.min (Py.len pans - 1) (current_pan (env w) + 1)) (env w))
                (np_random w))
    else (Raise AssertionError, w).
Proof.
  unfold perform. repeat (split_match; [reflexivity|]). reflexivity.
Qed.

Lemma perform_valid (a : Z) (w : world) :
  valid_action a -> fst (perform a w) = Ok tt.
Proof.
  intros Ha. rewrite perform_cases.
  repeat (split_match; [reflexivity|]). unfold valid_action in Ha. lia.
Qed.

Lemma perform_invalid (a : Z) (w : world) :
  ~ valid_action a -> perform a w = (Raise AssertionError, w).
Proof.
  intros Ha. rewrite perform_cases. unfold valid_action in Ha.
  repeat (split_match; [lia|]). reflexivity.
Qed.

Lemma perform_Ok (a : Z) (w w1 : world) (u : unit) :
  perform a w = (Ok u, w1) -> valid_action a.
Proof.
  rewrite perform_cases. unfold valid_action.
  repeat (split_match; [lia|]). discriminate.
Qed.

(** [perform] touches the two indices only, and keeps them in the grid. *)
Lemma perform_frame (a : Z) (w : world) :
  exists ct cp,
    snd (perform a w) =
      mkWorld (set_current_pan cp (set_current_tilt ct (env w))) (np_random w)
    /\ (in_grid (env w) -> 0 <= ct < Py.len tilts /\ 0 <= cp < Py.len pans).
Proof.
  exists (current_tilt (env (snd (perform a w)))),
         (current_pan (env (snd (perform a w)))).
  rewrite perform_cases. open_world w. unfold in_grid, Py.len.
  repeat split_match; run_monad; (split; [reflexivity|]); simpl length; lia.
Qed.

Lemma bind_inv {A B : Type} (m : M A) (k : A -> M B) (w w' : world) (r : result B) :
  bind m k w = (r, w') ->
  (exists a w1, m w = (Ok a, w1) /\ k a w1 = (r, w')) \/
  (exists x, m w = (Raise x, w') /\ r = Raise x).
Proof.
  unfold bind. destruct (m w) as [[a|x] w1].
  - intros H. left. eauto.
  - intros [= <- <-]. right. eauto.
Qed.

Lemma bind_Ok_inv {A B : Type} (m : M A) (k : A -> M B) (w w' : world) (b : B) :
  bind m k w = (Ok b, w') ->
  exists a w1, m w = (Ok a, w1) /\ k a w1 = (Ok b, w').
Proof.
  intros H. apply bind_inv in H as [H|(x & _ & [=])]. exact H.
Qed.

Lemma self_inv {A : Type} (f : CameraControlEnv -> A) (w w' : world) (r : result A) :
  self f w = (r, w') -> r = Ok (f (env w)) /\ w' = w.
Proof. intros [= <- <-]. split; reflexivity. Qed.

Lemma update_inv (f : CameraControlEnv -> CameraControlEnv) (w w' : world) (r : result unit) :
  update f w = (r, w') -> r = Ok tt /\ w' = mkWorld (f (env w)) (np_random w).
Proof. intros [= <- <-]. split; reflexivity. Qed.

Lemma lift_inv {A : Type} (x : result A) (w w' : world) (r : result A) :
  lift x w = (r, w') -> r = x /\ w' = w.
Proof. intros [= <- <-]. split; reflexivity. Qed.

Ltac ok_step H :=
  let Hm := fresh "Hm" in
  apply bind_Ok_inv in H as (? & ? & Hm & H);
  first
    [ apply self_inv in Hm as [[= ->] ->]
    | apply update_inv in Hm as [_ ->]
    | apply lift_inv in Hm as [Hm ->]; symmetry in Hm
    | idtac ];
  cbn [env np_random] in *.

Lemma step_Ok (a : Z) (w w' : world) (o : outcome) :
  step a w = (Ok o, w') ->
  valid_action a /\
  exists tilt pan fpe fte v err r,
    let e := env w in
    let e1 := env (snd (perform a w)) in
    Py.getitem tilts (current_tilt e1) = Ok tilt /\
    Py.getitem pans (current_pan e1) = Ok pan /\
    Py.setitem (final_pan_error e) (-1) pan = Ok fpe /\
    Py.setitem (final_tilt_error e) (-1) tilt = Ok fte /\
    lookup_views (persons e) (current_person e) tilt pan = Ok v /\
    calc_error tilt pan = Ok err /\
    shape (error_memory e ++ [err]) (calc_reward err) = Ok r /\
    o = (sub_mean (fst v), r, false, ∅) /\
    w' = mkWorld
           (mkEnv (persons e) (testing e) (current_tilt e1) (current_pan e1)
              (current_person e) (error_memory e ++ [err]) (sub_mean (fst v))
              (snd v) (epoch_counter e) (iteration_counter e + 1)
              (init_pan_error e) (init_tilt_error e) fpe fte
              (state_text tilt pan) (text_of_action a) (interactive e))
           (np_random w).
Proof.
  intros H. unfold step in H.
  repeat ok_step H.
  unfold ret in H. injection H as <- <-.
  split; [eapply perform_Ok; eassumption|].
  destruct (perform_frame a w) as (ct & cp & Hw1 & _).
  match goal with
  | Hp : perform _ _ = _,
    H1 : Py.getitem tilts _ = Ok ?t, H2 : Py.getitem pans _ = Ok ?p,
    H3 : Py.setitem _ _ ?p = Ok ?fp, H4 : Py.setitem _ _ ?t = Ok ?ft,
    H5 : lookup_views _ _ _ _ = Ok ?v, H6 : calc_error _ _ = Ok ?er,
    H7 : shape _ _ = Ok ?r |- _ =>
      exists t, p, fp, ft, v, er, r;
      rewrite Hp in *; cbn [snd] in *; subst
  end.
  open_world w. run_monad.
  repeat apply conj; first [assumption | reflexivity].
Qed.

Lemma getitem_Raise {A : Type} (l : list A) (i : Z) (x : exn) :
  Py.getitem l i = Raise x -> x = IndexError.
Proof.
  unfold Py.getitem. repeat split_match; congruence.
Qed.

Lemma setitem_Raise {A : Type} (l : list A) (i : Z) (v : A) (x : exn) :
  Py.setitem l i v = Raise x -> x = IndexError.
Proof.
  unfold Py.setitem. repeat split_match; congruence.
Qed.

Lemma lookup_views_Raise (d : dataset) (person tilt pan : Z) (x : exn) :
  lookup_views d person tilt pan = Raise x -> x = KeyError.
Proof.
  unfold lookup_views. repeat split_match; congruence.
Qed.

Lemma calc_error_Ok (tilt pan : Z) :
  calc_error tilt pan =
    Ok (F.sqr (F.of_Z tilt / F.of_Z 60) + F.sqr (F.of_Z pan / F.of_Z 90))%float.
Proof. reflexivity. Qed.

Lemma trend_short (cmp : float -> float -> bool) (mem : list float) :
  (length mem <= 2)%nat -> trend cmp mem = Ok false.
Proof.
  intros H. unfold trend, Py.len.
  destruct (Z.ltb_spec 2 (Z.of_nat (length mem))); [lia | reflexivity].
Qed.

Lemma trend_long (cmp : float -> float -> bool) (front : list float) (first before now : float) :
  trend cmp (first :: front ++ [before; now]) = Ok (cmp before now).
Proof.
  unfold trend, Py.len.
  destruct (Z.ltb_spec 2 (Z.of_nat (length (first :: front ++ [before; now])))) as [_|H].
  - rewrite app_comm_cons, getitem_before_last.
    change [before; now] with ([before] ++ [now]).
    rewrite app_assoc, getitem_last. reflexivity.
  - simpl in H. rewrite length_app in H. simpl in H. lia.
Qed.

(** A memory of more than two errors ends with the last two of them. *)
Lemma long_memory (mem : list float) :
  (2 < length mem)%nat ->
  exists first front before now, mem = first :: front ++ [before; now].
Proof.
  intros H.
  destruct mem as [|now mem _] using rev_ind; [simpl in H; lia|].
  destruct mem as [|before mem _] using rev_ind;
    [rewrite length_app in H; simpl in H; lia|].
  destruct mem as [|first front]; [repeat rewrite length_app in H; simpl in H; lia|].
  exists first, front, before, now. rewrite <- app_assoc. reflexivity.
Qed.

Lemma trend_total (cmp : float -> float -> bool) (mem : list float) :
  exists b, trend cmp mem = Ok b.
Proof.
  destruct (le_lt_dec (length mem) 2) as [H|H].
  - rewrite trend_short by exact H. eauto.
  - destruct (long_memory mem H) as (first & front & before & now & ->).
    rewrite trend_long. eauto.
Qed.

Lemma shape_total (mem : list float) (reward : float) :
  exists r, shape mem reward = Ok r.
Proof.
  unfold shape.
  destruct (trend_total F.gtb mem) as [[|] ->]; [eauto|].
  destruct (trend_total PrimFloat.ltb mem) as [[|] ->]; eauto.
Qed.

Lemma perform_Raise (a : Z) (w w' : world) (x : exn) :
  perform a w = (Raise x, w') -> x = AssertionError /\ ~ valid_action a /\ w' = w.
Proof.
  rewrite perform_cases. unfold valid_action.
  repeat (split_match; [discriminate|]). intros [= <- <-].
  split; [reflexivity|]. split; [lia | reflexivity].
Qed.

Lemma setitem_Ok_nonempty {A : Type} (l l' : list A) (i : Z) (v : A) :
  Py.setitem l i v = Ok l' -> l <> [].
Proof. intros H ->. rewrite setitem_nil in H. discriminate. Qed.

Ltac any_step H :=
  let Hm := fresh "Hm" in
  apply bind_inv in H as [(? & ? & Hm & H) | (? & Hm & [= <-])];
  [ first
      [ apply self_inv in Hm as [[= ->] ->]
      | apply update_inv in Hm as [_ ->]
      | apply lift_inv in Hm as [Hm ->]; symmetry in Hm
      | idtac ]
  | first
      [ apply self_inv in Hm as [[=] _]
      | apply update_inv in Hm as [[=] _]
      | apply lift_inv in Hm as [Hm ->]; symmetry in Hm
      | idtac ] ];
  cbn [env np_random] in *.

(** What a [step] that raises has done: which exception it is, and the world
    it leaves. *)
Lemma step_Raise (a : Z) (w w' : world) (x : exn) :
  step a w = (Raise x, w') ->
  (x = AssertionError /\ ~ valid_action a \/
   x = IndexError /\ valid_action a \/
   x = KeyError /\ valid_action a /\
     final_pan_error (env w) <> [] /\ final_tilt_error (env w) <> []) /\
  exists txt atxt fpe fte,
    w' = mkWorld
           (set_final_tilt_error fte
              (set_final_pan_error fpe
                 (set_action_text atxt
                    (set_current_state_text txt (env (snd (perform a w)))))))
           (np_random w) /\
    length fpe = length (final_pan_error (env w)) /\
    length fte = length (final_tilt_error (env w)).
Proof.
  intros H. unfold step in H.
  destruct (perform_frame a w) as (ct & cp & Hw1 & _).
  repeat any_step H.
  all: try (unfold ret in H; discriminate).
  all: try (rewrite calc_error_Ok in *; discriminate).
  all: try match goal with
           | Hs : shape ?m ?r = Raise _ |- _ =>
               destruct (shape_total m r); congruence
           end.
  all: repeat match goal with
              | Hr : Py.getitem _ _ = Raise _ |- _ => apply getitem_Raise in Hr; subst
              | Hr : Py.setitem _ _ _ = Raise _ |- _ => apply setitem_Raise in Hr; subst
              | Hr : lookup_views _ _ _ _ = Raise _ |- _ =>
                  apply lookup_views_Raise in Hr; subst
              end.
  all: match goal with
       | Hp : perform _ _ = (Raise _, _) |- _ =>
           rewrite Hp in *; cbn [snd] in *;
           apply perform_Raise in Hp as (-> & Hv & ->)
       | Hp : perform _ _ = (Ok _, _) |- _ =>
           pose proof (perform_Ok _ _ _ _ Hp) as Hv;
           rewrite Hp in *; cbn [snd] in *; subst
       end.
  all: open_world w; run_monad.
  all: split;
    [ first
        [ left; split; [reflexivity | assumption]
        | right; left; split; [reflexivity | assumption]
        | right; right; split; [reflexivity|]; split; [assumption|];
          split; eapply setitem_Ok_nonempty; eassumption ]
    | ].
  all: repeat match goal with
              | Hr : Py.setitem _ _ _ = Ok _ |- _ => apply setitem_length in Hr
              end.
  all: do 4 eexists; run_monad; (split; [reflexivity|]);
    split; assumption || reflexivity.
Qed.

(** *** [reset] *)

Lemma randint_range (low high : Z) (g : Np.RandomState) :
  low < high -> low <= fst (Np.randint low high g) < high.
Proof.
  intros H. unfold Np.randint. cbn [fst].
  pose proof (Z.mod_pos_bound (Np.supply g (Np.consumed g)) (high - low)). lia.
Qed.

Lemma randint_inv (low high : Z) (w w' : world) (r : result Z) :
  randint low high w = (r, w') ->
  r = Ok (fst (Np.randint low high (np_random w))) /\
  w' = mkWorld (env w) (snd (Np.randint low high (np_random w))).
Proof.
  unfold randint. destruct (Np.randint low high (np_random w)).
  intros [= <- <-]. split; reflexivity.
Qed.

Lemma draw_person_inv (test : bool) (w w' : world) (r : result Z) :
  draw_person test w = (r, w') ->
  r = Ok (fst (Np.randint (fst (pool test)) (snd (pool test)) (np_random w))) /\
  w' = mkWorld (env w) (snd (Np.randint (fst (pool test)) (snd (pool test)) (np_random w))).
Proof.
  unfold draw_person. destruct test; apply randint_inv.
Qed.

Ltac reset_step H :=
  let Hm := fresh "Hm" in
  let Hr := fresh "Hr" in
  apply bind_inv in H as [(? & ? & Hm & H) | (? & Hm & Hr)];
  [ first
      [ apply draw_person_inv in Hm as [[= ->] ->]
      | apply randint_inv in Hm as [[= ->] ->]
      | apply self_inv in Hm as [[= ->] ->]
      | apply update_inv in Hm as [_ ->]
      | apply lift_inv in Hm as [Hm ->]; symmetry in Hm ]
  | first
      [ discriminate Hr
      | injection Hr as <-;
        first
          [ apply draw_person_inv in Hm as [[=] _]
          | apply randint_inv in Hm as [[=] _]
          | apply self_inv in Hm as [[=] _]
          | apply update_inv in Hm as [[=] _]
          | apply lift_inv in Hm as [Hm ->]; symmetry in Hm ] ] ];
  cbn [env np_random] in *.

Lemma drawn_range (test : bool) (g : Np.RandomState) :
  let '(person, ct, cp, _) := drawn test g in
  fst (pool test) <= person < snd (pool test) /\
  0 <= ct < Py.len tilts /\ 0 <= cp < Py.len pans.
Proof.
  unfold drawn.
  destruct (Np.randint (fst (pool test)) (snd (pool test)) g) as [person g1] eqn:H1.
  destruct (Np.randint 0 (Py.len tilts) g1) as [ct g2] eqn:H2.
  destruct (Np.randint 0 (Py.len pans) g2) as [cp g3] eqn:H3.
  pose proof (randint_range (fst (pool test)) (snd (pool test)) g) as R1.
  pose proof (randint_range 0 (Py.len tilts) g1) as R2.
  pose proof (randint_range 0 (Py.len pans) g2) as R3.
  rewrite H1 in R1. rewrite H2 in R2. rewrite H3 in R3. cbn [fst] in *.
  repeat split; first [apply R1 | apply R2 | apply R3]; destruct test; reflexivity.
Qed.

(** What a [reset] that returns has done. *)
Lemma reset_Ok (w w' : world) (obs : image) :
  reset w = (Ok obs, w') ->
  let e := env w in
  let '(person, ct, cp, g') := drawn (testing e) (np_random w) in
  exists tilt pan v,
    Py.getitem tilts ct = Ok tilt /\
    Py.getitem pans cp = Ok pan /\
    lookup_views (persons e) person tilt pan = Ok v /\
    obs = sub_mean (fst v) /\
    w' = mkWorld
           (mkEnv (persons e) (testing e) ct cp person [] (sub_mean (fst v)) (snd v)
              (epoch_counter e + 1) 0
              (init_pan_error e ++ [pan]) (init_tilt_error e ++ [tilt])
              (final_pan_error e ++ [pan]) (final_tilt_error e ++ [tilt])
              (state_text tilt pan) "None" (interactive e))
           g'.
Proof.
  intros H. unfold reset in H.
  repeat reset_step H.
  unfold self in H. injection H as <- <-.
  unfold drawn, Np.randint in *.
  cbn [fst snd Np.supply Np.consumed] in *.
  repeat match goal with
         | Hd : Ok _ = Ok _ |- _ => injection Hd as <-
         end.
  match goal with
  | H1 : Py.getitem tilts _ = Ok ?t, H2 : Py.getitem pans _ = Ok ?p,
    H5 : lookup_views _ _ _ _ = Ok ?v |- _ => exists t, p, v
  end.
  open_world w. run_monad. unfold Py.append.
  repeat apply conj; first [assumption | reflexivity].
Qed.

(** ** The indices *)

Lemma run_pair {A : Type} (m : M A) (w : world) (r : result A) :
  fst (m w) = r -> m w = (r, snd (m w)).
Proof. destruct (m w). cbn [fst snd]. intros ->. reflexivity. Qed.

(** The indices after a [step] are those [perform] has set, whatever comes
    after. *)
Lemma step_indices (a : Z) (w : world) :
  indices (env (snd (step a w))) = indices (env (snd (perform a w))).
Proof.
  destruct (perform_frame a w) as (ct & cp & Hw1 & _).
  destruct (step a w) as [[o|x] w'] eqn:H; cbn [snd].
  - apply step_Ok in H as (_ & tilt & pan & fpe & fte & v & err & r & H).
    cbv zeta in H. destruct H as (_ & _ & _ & _ & _ & _ & _ & _ & ->).
    reflexivity.
  - apply step_Raise in H as (_ & txt & atxt & fpe & fte & -> & _).
    rewrite Hw1. reflexivity.
Qed.

Lemma step_in_grid (a : Z) (w : world) :
  in_grid (env w) -> in_grid (env (snd (step a w))).
Proof.
  intros Hg. pose proof (step_indices a w) as Hi.
  destruct (perform_frame a w) as (ct & cp & Hw1 & Hr).
  rewrite Hw1 in Hi. read_fields.
  injection Hi as Ht Hp. unfold in_grid. rewrite Ht, Hp. apply Hr. exact Hg.
Qed.

Lemma attempts_in_grid (actions : list Z) (w : world) :
  in_grid (env w) -> in_grid (env (attempts actions w)).
Proof.
  revert w. induction actions as [|a rest IH]; intros w Hg; simpl.
  - exact Hg.
  - apply IH, step_in_grid, Hg.
Qed.

(** A loop that stops at the first exception has made the calls of a prefix
    of its actions. *)
Lemma steps_attempts (actions : list Z) (w : world) :
  exists k, snd (steps actions w) = attempts (take k actions) w.
Proof.
  revert w. induction actions as [|a rest IH]; intros w.
  - exists 0%nat. reflexivity.
  - simpl steps. unfold bind. destruct (step a w) as [[o|x] w1] eqn:H.
    + destruct (IH w1) as [k Hk]. exists (S k). simpl. rewrite H. exact Hk.
    + exists 1%nat. simpl. rewrite H. reflexivity.
Qed.

Lemma reset_in_grid (w w' : world) (obs : image) :
  reset w = (Ok obs, w') -> in_grid (env w').
Proof.
  intros H. apply reset_Ok in H. cbv zeta in H.
  pose proof (drawn_range (testing (env w)) (np_random w)) as R.
  destruct (drawn (testing (env w)) (np_random w)) as [[[person ct] cp] g'].
  destruct H as (tilt & pan & v & _ & _ & _ & _ & ->).
  unfold in_grid. cbn [env current_tilt current_pan]. apply R.
Qed.

(** At the edge, the action that pushes outwards changes neither index. *)
Lemma step_at_boundary (a : Z) (w : world) :
  at_boundary a (env w) -> indices (env (snd (step a w))) = indices (env w).
Proof.
  intros Hb. rewrite step_indices, perform_cases.
  unfold at_boundary in Hb. open_world w. read_fields.
  destruct Hb as [[-> ->]|[[-> ->]|[[-> ->]|[-> ->]]]]; reflexivity.
Qed.

Lemma attempts_at_boundary (a : Z) (n : nat) (w : world) :
  at_boundary a (env w) ->
  indices (env (attempts (replicate n a) w)) = indices (env w).
Proof.
  revert w. induction n as [|n IH]; intros w Hb; simpl.
  - reflexivity.
  - pose proof (step_at_boundary a w Hb) as Hs.
    rewrite IH; [exact Hs|].
    unfold at_boundary, indices in *. injection Hs as -> ->. exact Hb.
Qed.

(** C3: after a [reset] that has returned, whatever [step] calls follow
    (valid actions or not, returning or raising), the indices stay within
    [[0, len(tilts) - 1]] and [[0, len(pans) - 1]]; an action that pushes
    against the edge the camera is at leaves both indices as they are,
    however often it is repeated; action 1 at [tilt_index = 0] leaves the
    tilt index at 0. *)
Theorem indices_clamped (w w0 : world) (obs : image) (actions : list Z) :
  reset w = (Ok obs, w0) ->
  let w1 := attempts actions w0 in
  in_grid (env w1) /\
  in_grid (env (snd (steps actions w0))) /\
  (forall a n, at_boundary a (env w1) ->
               indices (env (attempts (replicate n a) w1)) = indices (env w1)) /\
  (current_tilt (env w1) = 0 -> current_tilt (env (snd (step 1 w1))) = 0).
Proof.
  intros H w1. apply reset_in_grid in H.
  split; [apply attempts_in_grid, H|].
  split.
  { destruct (steps_attempts actions w0) as [k ->]. apply attempts_in_grid, H. }
  split.
  { intros a n. apply attempts_at_boundary. }
  intros H0.
  assert (Hb : at_boundary 1 (env w1)) by (left; split; [reflexivity | exact H0]).
  apply step_at_boundary in Hb. unfold indices in Hb. injection Hb as -> _. exact H0.
Qed.

Lemma indices_clamped_witness :
  reset Sample.fresh = (Ok [[(7, -30, -90)]], Sample.started) /\
  let w1 := attempts [1; 1; 3] Sample.started in
  in_grid (env w1) /\
  in_grid (env (snd (steps [1; 1; 3] Sample.started))) /\
  (forall a n, at_boundary a (env w1) ->
               indices (env (attempts (replicate n a) w1)) = indices (env w1)) /\
  (current_tilt (env w1) = 0 -> current_tilt (env (snd (step 1 w1))) = 0).
Proof.
  assert (H : reset Sample.fresh = (Ok [[(7, -30, -90)]], Sample.started))
    by (unfold Sample.started; apply (run_pair reset Sample.fresh);
        vm_compute; reflexivity).
  split; [exact H|].
  exact (indices_clamped Sample.fresh Sample.started [[(7, -30, -90)]] [1; 1; 3] H).
Defined.

(** ** The action dispatch *)

(** C4: for every action outside {0, 1, 2, 3, 4} the call raises
    [AssertionError] and leaves the object as it was; for an action of
    {0, ..., 4} the dispatch raises nothing, and no later part of [step]
    raises [AssertionError]. *)
Theorem step_rejects_invalid_action (a : Z) (w : world) :
  (~ valid_action a -> step a w = (Raise AssertionError, w)) /\
  (valid_action a ->
   fst (perform a w) = Ok tt /\ fst (step a w) <> Raise AssertionError).
Proof.
  split.
  - intros Ha. unfold step, bind. rewrite perform_invalid by exact Ha. reflexivity.
  - intros Ha. split; [apply perform_valid, Ha|].
    destruct (step a w) as [[o|x] w'] eqn:H; cbn [fst]; [discriminate|].
    apply step_Raise in H as ([[-> Hn]|[[-> _]|[-> _]]] & _).
    + contradiction.
    + discriminate.
    + discriminate.
Qed.

Lemma step_rejects_invalid_action_witness :
  step 5 Sample.started = (Raise AssertionError, Sample.started) /\
  step (-1) Sample.started = (Raise AssertionError, Sample.started) /\
  fst (perform 4 Sample.started) = Ok tt /\
  fst (step 4 Sample.started) <> Raise AssertionError.
Proof.
  split; [|split].
  - apply (step_rejects_invalid_action 5 Sample.started). unfold valid_action. lia.
  - apply (step_rejects_invalid_action (-1) Sample.started). unfold valid_action. lia.
  - apply (step_rejects_invalid_action 4 Sample.started). unfold valid_action. lia.
Defined.

(** ** Termination flag *)

(** C5: every [step] call that returns, returns [done = False]. *)
Theorem step_never_done (a : Z) (w w' : world)
    (obs : image) (reward : float) (done : bool) (i : info) :
  step a w = (Ok (obs, reward, done, i), w') -> done = false.
Proof.
  intros H. apply step_Ok in H as (_ & tilt & pan & fpe & fte & v & err & r & H).
  cbv zeta in H. destruct H as (_ & _ & _ & _ & _ & _ & _ & Ho & _).
  injection Ho as _ _ -> _. reflexivity.
Qed.

Lemma step_never_done_witness :
  step 2 Sample.started
    = (Ok ([[(7, -15, -90)]], 0%float, false, ∅), snd (step 2 Sample.started)) /\
  false = false.
Proof.
  assert (H : step 2 Sample.started
              = (Ok ([[(7, -15, -90)]], 0%float, false, ∅), snd (step 2 Sample.started)))
    by (apply (run_pair (step 2) Sample.started); vm_compute; reflexivity).
  split; [exact H|].
  exact (step_never_done 2 Sample.started _ _ _ _ _ H).
Defined.

(** ** Independence of the generator *)

Lemma env_only_ret {A : Type} (a : A) : env_only (ret a).
Proof. intros e g g'. reflexivity. Qed.

Lemma env_only_raise {A : Type} (x : exn) : env_only (@raise A x).
Proof. intros e g g'. reflexivity. Qed.

Lemma env_only_lift {A : Type} (r : result A) : env_only (lift r).
Proof. intros e g g'. reflexivity. Qed.

Lemma env_only_self {A : Type} (f : CameraControlEnv -> A) : env_only (self f).
Proof. intros e g g'. reflexivity. Qed.

Lemma env_only_update (f : CameraControlEnv -> CameraControlEnv) :
  env_only (update f).
Proof. intros e g g'. reflexivity. Qed.

Lemma env_only_bind {A B : Type} (m : M A) (k : A -> M B) :
  env_only m -> (forall a, env_only (k a)) -> env_only (bind m k).
Proof.
  intros Hm Hk e g g'. unfold bind. rewrite (Hm e g g').
  destruct (m (mkWorld e g)) as [[a|x] [e1 g1]]; cbn [fst snd env].
  - apply Hk.
  - reflexivity.
Qed.

Create HintDb env_only.
#[local] Hint Resolve env_only_ret env_only_raise env_only_lift env_only_self
  env_only_update : env_only.

Ltac env_only_steps :=
  repeat first
    [ apply env_only_bind; [solve [auto with env_only] | intros ]
    | solve [auto with env_only] ].

Lemma env_only_perform (a : Z) : env_only (perform a).
Proof.
  unfold perform. repeat (split_match; [env_only_steps|]). env_only_steps.
Qed.

Lemma env_only_step (a : Z) : env_only (step a).
Proof.
  unfold step. apply env_only_bind; [apply env_only_perform | intros _].
  env_only_steps.
Qed.

(** C10: [step] draws nothing: from the same object and with the same action
    it returns the same tuple and leaves the same object, whatever state the
    generator is in, and it leaves the generator as it was. *)
Theorem step_deterministic (a : Z) (w1 w2 : world) :
  env w1 = env w2 ->
  fst (step a w1) = fst (step a w2) /\
  env (snd (step a w1)) = env (snd (step a w2)) /\
  np_random (snd (step a w1)) = np_random w1 /\
  np_random (snd (step a w2)) = np_random w2.
Proof.
  destruct w1 as [e1 g1], w2 as [e2 g2]. cbn [env np_random]. intros <-.
  pose proof (env_only_step a e1 g1 g2) as H21.
  pose proof (env_only_step a e1 g1 g1) as H11.
  rewrite H21. cbn [fst snd env np_random].
  split; [reflexivity|]. split; [reflexivity|]. split; [|reflexivity].
  rewrite H11. reflexivity.
Qed.

Lemma step_deterministic_witness :
  env Sample.started = env (mkWorld (env Sample.started) (Sample.gen [3; 1; 4])) /\
  fst (step 2 Sample.started)
    = fst (step 2 (mkWorld (env Sample.started) (Sample.gen [3; 1; 4]))) /\
  env (snd (step 2 Sample.started))
    = env (snd (step 2 (mkWorld (env Sample.started) (Sample.gen [3; 1; 4])))) /\
  np_random (snd (step 2 Sample.started)) = np_random Sample.started /\
  np_random (snd (step 2 (mkWorld (env Sample.started) (Sample.gen [3; 1; 4]))))
    = np_random (mkWorld (env Sample.started) (Sample.gen [3; 1; 4])).
Proof.
  assert (H : env Sample.started
              = env (mkWorld (env Sample.started) (Sample.gen [3; 1; 4])))
    by (cbn [env]; reflexivity).
  split; [exact H|].
  exact (step_deterministic 2 Sample.started
           (mkWorld (env Sample.started) (Sample.gen [3; 1; 4])) H).
Defined.

(** ** Before the first [reset] *)

Lemma init_Ok (data : dataset) (test inter : bool) (g : Np.RandomState) (w : world) :
  init data test inter g = Ok w ->
  unstarted (env w) /\
  init_pan_error (env w) = [] /\ init_tilt_error (env w) = [] /\
  persons (env w) = data /\ testing (env w) = test.
Proof.
  unfold init.
  destruct (if test then Np.randint 20 30 g else Np.randint 0 20 g) as [person g'].
  change (Py.getitem tilts 0) with (Ok (-60) : result Z).
  change (Py.getitem pans 0) with (Ok (-90) : result Z).
  intros [= <-]. unfold unstarted, in_grid, Py.len. cbn [env current_tilt current_pan
    final_pan_error final_tilt_error init_pan_error init_tilt_error persons testing].
  simpl length. repeat split; lia.
Qed.

Lemma init_total (data : dataset) (test inter : bool) (g : Np.RandomState) :
  exists w, init data test inter g = Ok w.
Proof.
  unfold init.
  destruct (if test then Np.randint 20 30 g else Np.randint 0 20 g) as [person g'].
  change (Py.getitem tilts 0) with (Ok (-60) : result Z).
  change (Py.getitem pans 0) with (Ok (-90) : result Z).
  eauto.
Qed.

Lemma length_zero_nil {A : Type} (l : list A) : length l = 0%nat -> l = [].
Proof. destruct l; [reflexivity | discriminate]. Qed.

(** On an object no [reset] has touched, a [step] with a valid action raises
    [IndexError], and the object is as untouched as before. *)
Lemma step_unstarted (a : Z) (w : world) :
  unstarted (env w) -> valid_action a ->
  fst (step a w) = Raise IndexError /\ unstarted (env (snd (step a w))).
Proof.
  intros (Hp & Ht & Hg) Ha.
  pose proof (step_in_grid a w Hg) as Hg'.
  destruct (step a w) as [[o|x] w'] eqn:H; cbn [fst snd] in *.
  - apply step_Ok in H as (_ & tilt & pan & fpe & fte & v & err & r & H).
    cbv zeta in H. destruct H as (_ & _ & Hs & _).
    rewrite Hp, setitem_nil in Hs. discriminate.
  - apply step_Raise in H as (Hx & txt & atxt & fpe & fte & -> & Hlp & Hlt).
    rewrite Hp in Hlp. rewrite Ht in Hlt.
    apply length_zero_nil in Hlp, Hlt. subst fpe fte.
    split.
    + destruct Hx as [[_ Hn]|[[-> _]|(_ & _ & Hn & _)]];
        [contradiction | reflexivity | contradiction].
    + unfold unstarted. read_fields. repeat split; try reflexivity; apply Hg'.
Qed.

Lemma attempts_unstarted (actions : list Z) (w : world) :
  unstarted (env w) -> unstarted (env (attempts actions w)).
Proof.
  revert w. induction actions as [|a rest IH]; intros w Hu; simpl.
  - exact Hu.
  - apply IH.
    destruct (Z_le_dec 0 a) as [H0|H0]; [destruct (Z_le_dec a 4) as [H4|H4]|].
    + apply step_unstarted; [exact Hu | split; assumption].
    + unfold step, bind. rewrite perform_invalid by (unfold valid_action; lia).
      exact Hu.
    + unfold step, bind. rewrite perform_invalid by (unfold valid_action; lia).
      exact Hu.
Qed.

(** C9: on a freshly constructed object, a [step] with a valid action raises
    [IndexError], and it still does after any number of failed [step]s; a
    [step] that returns has found the final-error sequences non-empty, which
    only a [reset] makes them. *)
Theorem step_before_reset_fails
    (data : dataset) (test inter : bool) (g : Np.RandomState) (w : world)
    (actions : list Z) (a : Z) :
  init data test inter g = Ok w -> valid_action a ->
  final_pan_error (env w) = [] /\ final_tilt_error (env w) = [] /\
  fst (step a w) = Raise IndexError /\
  fst (step a (attempts actions w)) = Raise IndexError /\
  (forall b v o v', step b v = (Ok o, v') ->
                    final_pan_error (env v) <> [] /\ final_tilt_error (env v) <> []) /\
  (forall v obs v', reset v = (Ok obs, v') ->
                    final_pan_error (env v') <> [] /\ final_tilt_error (env v') <> []).
Proof.
  intros Hi Ha. apply init_Ok in Hi as (Hu & _).
  split; [apply Hu|]. split; [apply Hu|].
  split; [apply step_unstarted; assumption|].
  split; [apply step_unstarted; [apply attempts_unstarted|]; assumption|].
  split.
  - intros b v o v' H.
    apply step_Ok in H as (_ & tilt & pan & fpe & fte & u & err & r & H).
    cbv zeta in H. destruct H as (_ & _ & Hp & Ht & _).
    split; eapply setitem_Ok_nonempty; eassumption.
  - intros v obs v' H. apply reset_Ok in H. cbv zeta in H.
    destruct (drawn (testing (env v)) (np_random v)) as [[[person ct] cp] g'].
    destruct H as (tilt & pan & u & _ & _ & _ & _ & ->).
    cbn [env final_pan_error final_tilt_error].
    split; intros Hn; apply app_eq_nil in Hn as [_ Hn]; discriminate.
Qed.

Lemma init_sample :
  init Sample.data false false (Sample.gen Sample.draws) = Ok Sample.fresh.
Proof.
  unfold init, Sample.fresh, Sample.gen, Np.randint.
  cbn [Np.supply Np.consumed]. change (nth 0 Sample.draws 0) with 5.
  change (Py.getitem tilts 0) with (Ok (-60) : result Z).
  change (Py.getitem pans 0) with (Ok (-90) : result Z).
  change (state_text (-60) (-90)) with "-60/-90".
  reflexivity.
Qed.

Lemma step_before_reset_fails_witness :
  init Sample.data false false (Sample.gen Sample.draws) = Ok Sample.fresh /\
  valid_action 3 /\
  final_pan_error (env Sample.fresh) = [] /\
  final_tilt_error (env Sample.fresh) = [] /\
  fst (step 3 Sample.fresh) = Raise IndexError /\
  fst (step 3 (attempts [0; 2; 9] Sample.fresh)) = Raise IndexError /\
  (forall b v o v', step b v = (Ok o, v') ->
                    final_pan_error (env v) <> [] /\ final_tilt_error (env v) <> []) /\
  (forall v obs v', reset v = (Ok obs, v') ->
                    final_pan_error (env v') <> [] /\ final_tilt_error (env v') <> []).
Proof.
  assert (Ha : valid_action 3) by (unfold valid_action; lia).
  split; [exact init_sample|]. split; [exact Ha|].
  exact (step_before_reset_fails Sample.data false false (Sample.gen Sample.draws)
           Sample.fresh [0; 2; 9] 3 init_sample Ha).
Defined.

(** ** Error and reward *)

Lemma on_grid_spec (test : Z -> Z -> bool) :
  on_grid test = true ->
  forall t p, t ∈ tilts -> p ∈ pans -> test t p = true.
Proof.
  unfold on_grid. intros H t p Ht Hp.
  rewrite forallb_forall in H. apply list_elem_of_In in Ht, Hp.
  specialize (H t Ht). rewrite forallb_forall in H. exact (H p Hp).
Qed.

(** [np.max(np.abs(grid))] is the maximum absolute value in the grid. *)
Lemma max_of_abs (x : Z) (grid : list Z) :
  Np.max (Np.abs (x :: grid)) = Ok (max_abs (x :: grid)).
Proof.
  unfold Np.max, Np.abs. cbn [map]. f_equal.
  assert (G : forall l acc, 0 <= acc ->
                fold_left Z.max (map Z.abs l) acc = Z.max acc (max_abs l)).
  { induction l as [|y l IH]; intros acc Hacc; cbn [map fold_left max_abs fold_right].
    - lia.
    - rewrite IH by lia. fold (max_abs l). lia. }
  rewrite G by lia. cbn [max_abs fold_right]. fold (max_abs grid).
  assert (0 <= max_abs grid).
  { clear. induction grid as [|y l IH]; cbn [max_abs fold_right]; [lia|].
    fold (max_abs l). lia. }
  lia.
Qed.

Lemma calc_error_spec (tilt pan : Z) :
  calc_error tilt pan = Ok (normalized_squared_error tilt pan).
Proof.
  unfold calc_error, normalized_squared_error, tilts, pans.
  rewrite !max_of_abs. reflexivity.
Qed.

Lemma errors_in_range : on_grid error_in_range = true.
Proof. vm_compute. reflexivity. Qed.

Lemma rewards_in_range : on_grid reward_in_range = true.
Proof. vm_compute. reflexivity. Qed.

(** C6: the error a [step] appends to the per-episode sequence is
    (tilt / max_abs_tilt)^2 + (pan / max_abs_pan)^2 for the angles at the new
    indices, the maxima being those of the absolute values in the grids, and
    it lies in [[0, 2]]. *)
Theorem step_appends_error (a : Z) (w w' : world)
    (obs : image) (reward : float) (done : bool) (i : info) :
  step a w = (Ok (obs, reward, done, i), w') ->
  exists tilt pan,
    Py.getitem tilts (current_tilt (env w')) = Ok tilt /\
    Py.getitem pans (current_pan (env w')) = Ok pan /\
    error_memory (env w')
      = error_memory (env w) ++ [normalized_squared_error tilt pan] /\
    (0 <=? normalized_squared_error tilt pan)%float = true /\
    (normalized_squared_error tilt pan <=? 2)%float = true.
Proof.
  intros H. apply step_Ok in H as (_ & tilt & pan & fpe & fte & v & err & r & H).
  cbv zeta in H. destruct H as (Ht & Hp & _ & _ & _ & He & _ & _ & ->).
  rewrite calc_error_spec in He. injection He as <-.
  exists tilt, pan. cbn [env current_tilt current_pan error_memory].
  repeat split; try assumption.
  - pose proof (on_grid_spec _ errors_in_range tilt pan
                  (getitem_elem_of _ _ _ Ht) (getitem_elem_of _ _ _ Hp)) as R.
    unfold error_in_range in R. apply andb_prop in R. apply R.
  - pose proof (on_grid_spec _ errors_in_range tilt pan
                  (getitem_elem_of _ _ _ Ht) (getitem_elem_of _ _ _ Hp)) as R.
    unfold error_in_range in R. apply andb_prop in R. apply R.
Qed.

Lemma step_appends_error_witness :
  step 2 Sample.started
    = (Ok ([[(7, -15, -90)]], 0%float, false, ∅), snd (step 2 Sample.started)) /\
  exists tilt pan,
    Py.getitem tilts (current_tilt (env (snd (step 2 Sample.started)))) = Ok tilt /\
    Py.getitem pans (current_pan (env (snd (step 2 Sample.started)))) = Ok pan /\
    error_memory (env (snd (step 2 Sample.started)))
      = error_memory (env Sample.started) ++ [normalized_squared_error tilt pan] /\
    (0 <=? normalized_squared_error tilt pan)%float = true /\
    (normalized_squared_error tilt pan <=? 2)%float = true.
Proof.
  assert (H : step 2 Sample.started
              = (Ok ([[(7, -15, -90)]], 0%float, false, ∅), snd (step 2 Sample.started)))
    by (apply (run_pair (step 2) Sample.started); vm_compute; reflexivity).
  split; [exact H|].
  exact (step_appends_error 2 Sample.started _ _ _ _ _ H).
Defined.

Lemma shape_short (mem : list float) (base : float) :
  (length mem < 3)%nat -> shape mem base = Ok base.
Proof.
  intros H. unfold shape. rewrite !trend_short by lia. reflexivity.
Qed.

Lemma shape_long (front : list float) (first before now base : float) :
  shape (first :: front ++ [before; now]) base =
    Ok (if (now <? before)%float then (base + 0.1)%float
        else if (before <? now)%float then (base + -0.15)%float
        else base).
Proof.
  unfold shape. rewrite !trend_long. unfold F.gtb.
  destruct (now <? before)%float; [reflexivity|].
  destruct (before <? now)%float; reflexivity.
Qed.

Lemma shape_cases (mem : list float) (base r : float) :
  shape mem base = Ok r ->
  r = base \/ r = (base + 0.1)%float \/ r = (base + -0.15)%float.
Proof.
  destruct (le_lt_dec 3 (length mem)) as [H|H].
  - destruct (long_memory mem H) as (first & front & before & now & ->).
    rewrite shape_long.
    destruct (now <? before)%float; [intros [= <-]; auto|].
    destruct (before <? now)%float; intros [= <-]; auto.
  - rewrite shape_short by exact H. intros [= <-]. auto.
Qed.

(** Every returning [step] of a loop appends one error. *)
Lemma steps_memory (actions : list Z) (w w' : world) (u : unit) :
  steps actions w = (Ok u, w') ->
  length (error_memory (env w'))
    = (length (error_memory (env w)) + length actions)%nat.
Proof.
  revert w. induction actions as [|a rest IH]; intros w H.
  - injection H as _ <-. simpl. lia.
  - simpl steps in H. apply bind_Ok_inv in H as (o & w1 & Hs & H).
    apply IH in H. rewrite H.
    apply step_Ok in Hs as (_ & tilt & pan & fpe & fte & v & err & r & Hs).
    cbv zeta in Hs. destruct Hs as (_ & _ & _ & _ & _ & _ & _ & _ & ->).
    cbn [env error_memory]. rewrite length_app. simpl. lia.
Qed.

Lemma reset_clears_memory (w w' : world) (obs : image) :
  reset w = (Ok obs, w') -> error_memory (env w') = [].
Proof.
  intros H. apply reset_Ok in H. cbv zeta in H.
  destruct (drawn (testing (env w)) (np_random w)) as [[[person ct] cp] g'].
  destruct H as (tilt & pan & v & _ & _ & _ & _ & ->). reflexivity.
Qed.

(** C2: the bonus is applied only when the error sequence, the new error
    included, has at least 3 entries, so not on the first two steps of an
    episode; when it is applied it adds 0.1 if the previous error is strictly
    greater than the new one, -0.15 if it is strictly less, and nothing
    otherwise. *)
Theorem shaping_bonus (a : Z) (w w' : world)
    (obs : image) (reward : float) (done : bool) (i : info) :
  step a w = (Ok (obs, reward, done, i), w') ->
  exists err,
    error_memory (env w') = error_memory (env w) ++ [err] /\
    ((length (error_memory (env w')) < 3)%nat -> reward = calc_reward err) /\
    ((3 <= length (error_memory (env w')))%nat ->
     exists prev,
       last (error_memory (env w)) = Some prev /\
       reward = if (err <? prev)%float then (calc_reward err + 0.1)%float
                else if (prev <? err)%float then (calc_reward err + -0.15)%float
                else calc_reward err) /\
    (forall v obs0 v0 actions,
       reset v = (Ok obs0, v0) -> steps actions v0 = (Ok tt, w) ->
       (length actions < 2)%nat -> reward = calc_reward err).
Proof.
  intros H. apply step_Ok in H as (_ & tilt & pan & fpe & fte & v & err & r & H).
  cbv zeta in H. destruct H as (_ & _ & _ & _ & _ & _ & Hs & Ho & ->).
  injection Ho as _ -> _ _. exists err. cbn [env error_memory].
  split; [reflexivity|].
  assert (Hshort : (length (error_memory (env w) ++ [err]) < 3)%nat ->
                   r = calc_reward err).
  { intros Hl. rewrite shape_short in Hs by exact Hl. injection Hs as <-.
    reflexivity. }
  split; [exact Hshort|]. split.
  - intros Hl.
    destruct (long_memory _ Hl) as (first & front & before & now & Hm).
    rewrite Hm in Hs. rewrite shape_long in Hs. injection Hs as <-.
    change (first :: front ++ [before; now])
      with ((first :: front) ++ [before; now]) in Hm.
    change [before; now] with ([before] ++ [now]) in Hm.
    rewrite app_assoc in Hm. apply app_inj_tail in Hm as [-> ->].
    exists before. split; [apply last_snoc | reflexivity].
  - intros v0 obs0 w0 actions Hr Hsteps Hl. apply Hshort.
    apply steps_memory in Hsteps. rewrite (reset_clears_memory _ _ _ Hr) in Hsteps.
    rewrite length_app, Hsteps. simpl. lia.
Qed.

Lemma shaping_bonus_witness :
  step 1 Sample.settled
    = (Ok ([[(7, -60, -90)]], (-0.15)%float, false, ∅), snd (step 1 Sample.settled)) /\
  exists err,
    error_memory (env (snd (step 1 Sample.settled)))
      = error_memory (env Sample.settled) ++ [err] /\
    ((length (error_memory (env (snd (step 1 Sample.settled)))) < 3)%nat ->
     (-0.15)%float = calc_reward err) /\
    ((3 <= length (error_memory (env (snd (step 1 Sample.settled)))))%nat ->
     exists prev,
       last (error_memory (env Sample.settled)) = Some prev /\
       (-0.15)%float
         = if (err <? prev)%float then (calc_reward err + 0.1)%float
           else if (prev <? err)%float then (calc_reward err + -0.15)%float
           else calc_reward err) /\
    (forall v obs0 v0 actions,
       reset v = (Ok obs0, v0) -> steps actions v0 = (Ok tt, Sample.settled) ->
       (length actions < 2)%nat -> (-0.15)%float = calc_reward err).
Proof.
  assert (H : step 1 Sample.settled
              = (Ok ([[(7, -60, -90)]], (-0.15)%float, false, ∅),
                 snd (step 1 Sample.settled)))
    by (apply (run_pair (step 1) Sample.settled); vm_compute; reflexivity).
  split; [exact H|].
  exact (shaping_bonus 1 Sample.settled _ _ _ _ _ H).
Defined.

(** C1, as the code has it: the reward a [step] returns lies in
    [[-0.15, 1.15]]; whenever the raw reward (2 - error) / 2 is below 0.95 the
    reward before the bonus is exactly 0, and the returned reward is then 0,
    0.1 or -0.15. *)
Theorem reward_range (a : Z) (w w' : world)
    (obs : image) (reward : float) (done : bool) (i : info) :
  step a w = (Ok (obs, reward, done, i), w') ->
  (-0.15 <=? reward)%float = true /\
  (reward <=? 1.15)%float = true /\
  exists err,
    last (error_memory (env w')) = Some err /\
    ((raw_reward err <? 0.95)%float = true ->
     calc_reward err = 0%float /\
     (reward = 0%float \/ reward = 0.1%float \/ reward = (-0.15)%float)).
Proof.
  intros H. apply step_Ok in H as (_ & tilt & pan & fpe & fte & v & err & r & H).
  cbv zeta in H. destruct H as (Ht & Hp & _ & _ & _ & He & Hs & Ho & ->).
  injection Ho as _ -> _ _. rewrite calc_error_spec in He. injection He as <-.
  pose proof (on_grid_spec _ rewards_in_range tilt pan
                (getitem_elem_of _ _ _ Ht) (getitem_elem_of _ _ _ Hp)) as R.
  unfold reward_in_range in R. cbv zeta in R.
  apply andb_prop in R as [R R3]. apply andb_prop in R as [R1 R2].
  apply shape_cases in Hs.
  assert (Hw : within r = true)
    by (destruct Hs as [->|[->| ->]]; assumption).
  unfold within in Hw. apply andb_prop in Hw as [Hlo Hhi].
  split; [exact Hlo|]. split; [exact Hhi|].
  exists (normalized_squared_error tilt pan). cbn [env error_memory].
  split; [apply last_snoc|].
  intros Hraw.
  assert (H0 : calc_reward (normalized_squared_error tilt pan) = 0%float)
    by (unfold calc_reward; cbv zeta; rewrite Hraw; reflexivity).
  split; [exact H0|]. rewrite H0 in Hs.
  destruct Hs as [->|[->| ->]]; [left | right; left | right; right]; reflexivity.
Qed.

Lemma reward_range_witness :
  step 2 Sample.settled
    = (Ok ([[(7, -15, -90)]], 0.1%float, false, ∅), snd (step 2 Sample.settled)) /\
  (-0.15 <=? 0.1)%float = true /\
  (0.1 <=? 1.15)%float = true /\
  exists err,
    last (error_memory (env (snd (step 2 Sample.settled)))) = Some err /\
    ((raw_reward err <? 0.95)%float = true ->
     calc_reward err = 0%float /\
     (0.1%float = 0%float \/ 0.1%float = 0.1%float \/ 0.1%float = (-0.15)%float)).
Proof.
  assert (H : step 2 Sample.settled
              = (Ok ([[(7, -15, -90)]], 0.1%float, false, ∅),
                 snd (step 2 Sample.settled)))
    by (apply (run_pair (step 2) Sample.settled); vm_compute; reflexivity).
  split; [exact H|].
  exact (reward_range 2 Sample.settled _ _ _ _ _ H).
Defined.

(** C1 as stated fails: the third step of an episode, moving away from the
    centre where the raw reward is 0, returns -0.15, which is below 0 and is
    not 0 although the raw reward is below 0.95. *)
Lemma reward_range_counterexample :
  valid_action 1 /\
  fst (step 1 Sample.settled)
    = Ok ([[(7, -60, -90)]], (-0.15)%float, false, ∅) /\
  (-0.15 <? 0)%float = true /\
  last (error_memory (env (snd (step 1 Sample.settled)))) = Some 2%float /\
  (raw_reward 2 <? 0.95)%float = true /\
  (-0.15)%float <> 0%float.
Proof.
  split; [unfold valid_action; lia|].
  split; [vm_compute; reflexivity|].
  split; [vm_compute; reflexivity|].
  split; [vm_compute; reflexivity|].
  split; [vm_compute; reflexivity|].
  intros H. apply (f_equal (fun x => (x <? 0)%float)) in H.
  vm_compute in H. discriminate.
Qed.

(** ** What [reset] returns *)

(** What a [reset] that raises has stumbled on. *)
Lemma reset_Raise (w w' : world) (x : exn) :
  reset w = (Raise x, w') ->
  let '(person, ct, cp, _) := drawn (testing (env w)) (np_random w) in
  Py.getitem tilts ct = Raise x \/
  (exists tilt, Py.getitem tilts ct = Ok tilt /\ Py.getitem pans cp = Raise x) \/
  (exists tilt pan,
     Py.getitem tilts ct = Ok tilt /\ Py.getitem pans cp = Ok pan /\
     lookup_views (persons (env w)) person tilt pan = Raise x).
Proof.
  intros H. unfold reset in H.
  repeat reset_step H.
  all: try (unfold self in H; discriminate).
  all: unfold drawn, Np.randint in *; cbn [fst snd Np.supply Np.consumed] in *.
  all: repeat match goal with
              | Hd : Ok _ = Ok _ |- _ => injection Hd as <-
              end.
  all: read_fields.
  all: first
         [ left; assumption
         | right; left; eexists; split; eassumption
         | right; right; do 2 eexists; repeat split; eassumption ].
Qed.

Lemma reset_total (w : world) :
  covers (persons (env w)) (testing (env w)) ->
  exists obs w', reset w = (Ok obs, w').
Proof.
  intros Hc. destruct (reset w) as [[obs|x] w'] eqn:H; [eauto|].
  apply reset_Raise in H.
  pose proof (drawn_range (testing (env w)) (np_random w)) as R.
  destruct (drawn (testing (env w)) (np_random w)) as [[[person ct] cp] g'].
  destruct R as (Rp & Rt & Rc).
  destruct (getitem_in_range tilts ct Rt) as (tilt & Ht & _).
  destruct (getitem_in_range pans cp Rc) as (pan & Hp & _).
  destruct (Hc person tilt pan Rp (getitem_elem_of _ _ _ Ht) (getitem_elem_of _ _ _ Hp))
    as [v Hv].
  destruct H as [H|[(t & H1 & H)|(t & p & H1 & H2 & H)]]; congruence.
Qed.

(** Every person of the pool and every cell of the grid can be drawn. *)
Lemma drawn_any (test : bool) (person ct cp : Z) :
  fst (pool test) <= person < snd (pool test) ->
  0 <= ct < Py.len tilts -> 0 <= cp < Py.len pans ->
  exists g g', drawn test g = (person, ct, cp, g').
Proof.
  intros Hp Ht Hc.
  exists (Np.mkRandomState (fun n => nth n [person - fst (pool test); ct; cp] 0) 0).
  eexists. unfold drawn, Np.randint. cbn [Np.supply Np.consumed nth].
  rewrite !Z.sub_0_r, !Z.add_0_l.
  rewrite (Z.mod_small (person - _)) by lia.
  rewrite (Z.mod_small ct) by lia. rewrite (Z.mod_small cp) by lia.
  f_equal. f_equal. f_equal. lia.
Qed.

Lemma coversb_spec (d : dataset) (test : bool) :
  coversb d test = true -> covers d test.
Proof.
  unfold coversb, covers. intros H person tilt pan Hp Ht Hc.
  rewrite forallb_forall in H.
  assert (Hin : In person (seqZ (fst (pool test)) (snd (pool test) - fst (pool test))))
    by (apply list_elem_of_In, elem_of_seqZ; lia).
  pose proof (on_grid_spec _ (H person Hin) tilt pan Ht Hc) as Hok.
  cbv beta in Hok.
  destruct (lookup_views d person tilt pan) as [v|x]; [eauto|].
  cbn [is_ok] in Hok. discriminate.
Qed.

(** Every person of the pool at every cell of the grid is what some state of
    the generator makes [reset] pick, when the dataset has that view. *)
Lemma reset_any (e : CameraControlEnv) (person ct cp tilt pan : Z)
    (v : image * image) :
  fst (pool (testing e)) <= person < snd (pool (testing e)) ->
  0 <= ct < Py.len tilts -> 0 <= cp < Py.len pans ->
  Py.getitem tilts ct = Ok tilt -> Py.getitem pans cp = Ok pan ->
  lookup_views (persons e) person tilt pan = Ok v ->
  exists g w',
    reset (mkWorld e g) = (Ok (sub_mean (fst v)), w') /\
    current_person (env w') = person /\
    current_tilt (env w') = ct /\
    current_pan (env w') = cp.
Proof.
  intros Hp Ht Hc Hgt Hgp Hv.
  destruct (drawn_any (testing e) person ct cp Hp Ht Hc) as (g & g' & Hd).
  exists g.
  destruct (reset (mkWorld e g)) as [[obs|x] w'] eqn:H.
  - apply reset_Ok in H. cbv zeta in H. cbn [env np_random] in H.
    rewrite Hd in H.
    destruct H as (tilt' & pan' & v' & Ht' & Hp' & Hv' & -> & ->).
    assert (tilt' = tilt) by congruence. assert (pan' = pan) by congruence.
    subst tilt' pan'. assert (v' = v) by congruence. subst v'.
    eexists. split; [reflexivity|].
    cbn [env current_person current_tilt current_pan]. repeat split.
  - apply reset_Raise in H. cbn [env np_random] in H. rewrite Hd in H.
    destruct H as [H|[(t & H1 & H)|(t & p & H1 & H2 & H)]]; congruence.
Qed.

(** C7: on a dataset that covers the pool, [reset] returns.  Whenever it
    returns, the person is the first draw it takes from the generator,
    [randint(20, 30)] when testing and [randint(0, 20)] otherwise, the tilt
    index the second draw, [randint(0, len(tilts))], the pan index the third,
    [randint(0, len(pans))], and the generator is left as these three draws
    leave it; so the person is one of the pool of the mode and the indices
    denote a cell of the grid; the observation returned (and kept in the
    object) is the frame the dataset, which is left as it was, has for that
    person and the angles of that cell, minus the mean vector.  The two pools
    are disjoint.  Every person of the pool and every cell can be drawn, and
    [reset] itself picks any of them, and returns the frame of that view minus
    the mean vector, from some state of the generator. *)
Theorem reset_observation (w : world) :
  (covers (persons (env w)) (testing (env w)) ->
   exists obs w', reset w = (Ok obs, w')) /\
  (forall obs w',
     reset w = (Ok obs, w') ->
     fst (pool (testing (env w))) <= current_person (env w')
       < snd (pool (testing (env w))) /\
     in_grid (env w') /\
     (exists tilt pan v,
        Py.getitem tilts (current_tilt (env w')) = Ok tilt /\
        Py.getitem pans (current_pan (env w')) = Ok pan /\
        lookup_views (persons (env w)) (current_person (env w')) tilt pan = Ok v /\
        obs = sub_mean (fst v) /\
        observation (env w') = obs) /\
     current_person (env w') =
       fst (if testing (env w) then Np.randint 20 30 (np_random w)
            else Np.randint 0 20 (np_random w)) /\
     current_tilt (env w') =
       fst (Np.randint 0 (Py.len tilts)
              (snd (if testing (env w) then Np.randint 20 30 (np_random w)
                    else Np.randint 0 20 (np_random w)))) /\
     current_pan (env w') =
       fst (Np.randint 0 (Py.len pans)
              (snd (Np.randint 0 (Py.len tilts)
                      (snd (if testing (env w) then Np.randint 20 30 (np_random w)
                            else Np.randint 0 20 (np_random w)))))) /\
     np_random w' =
       snd (Np.randint 0 (Py.len pans)
              (snd (Np.randint 0 (Py.len tilts)
                      (snd (if testing (env w) then Np.randint 20 30 (np_random w)
                            else Np.randint 0 20 (np_random w)))))) /\
     (current_person (env w'), current_tilt (env w'), current_pan (env w'),
      np_random w') = drawn (testing (env w)) (np_random w) /\
     persons (env w') = persons (env w) /\
     testing (env w') = testing (env w)) /\
  (forall person,
     ~ (fst (pool false) <= person < snd (pool false) /\
        fst (pool true) <= person < snd (pool true))) /\
  (forall person ct cp,
     fst (pool (testing (env w))) <= person < snd (pool (testing (env w))) ->
     0 <= ct < Py.len tilts -> 0 <= cp < Py.len pans ->
     exists g g', drawn (testing (env w)) g = (person, ct, cp, g')) /\
  (forall person ct cp tilt pan v,
     fst (pool (testing (env w))) <= person < snd (pool (testing (env w))) ->
     0 <= ct < Py.len tilts -> 0 <= cp < Py.len pans ->
     Py.getitem tilts ct = Ok tilt -> Py.getitem pans cp = Ok pan ->
     lookup_views (persons (env w)) person tilt pan = Ok v ->
     exists g w',
       reset (mkWorld (env w) g) = (Ok (sub_mean (fst v)), w') /\
       current_person (env w') = person /\
       current_tilt (env w') = ct /\
       current_pan (env w') = cp).
Proof.
  split; [apply reset_total|]. split.
  - intros obs w' H. pose proof (reset_in_grid _ _ _ H) as Hg.
    apply reset_Ok in H. cbv zeta in H.
    pose proof (drawn_range (testing (env w)) (np_random w)) as R.
    assert (Hd : drawn (testing (env w)) (np_random w) =
                 (fst (if testing (env w) then Np.randint 20 30 (np_random w)
                       else Np.randint 0 20 (np_random w)),
                  fst (Np.randint 0 (Py.len tilts)
                         (snd (if testing (env w) then Np.randint 20 30 (np_random w)
                               else Np.randint 0 20 (np_random w)))),
                  fst (Np.randint 0 (Py.len pans)
                         (snd (Np.randint 0 (Py.len tilts)
                                 (snd (if testing (env w)
                                       then Np.randint 20 30 (np_random w)
                                       else Np.randint 0 20 (np_random w)))))),
                  snd (Np.randint 0 (Py.len pans)
                         (snd (Np.randint 0 (Py.len tilts)
                                 (snd (if testing (env w)
                                       then Np.randint 20 30 (np_random w)
                                       else Np.randint 0 20 (np_random w)))))))).
    { unfold drawn. destruct (testing (env w)); reflexivity. }
    rewrite Hd in H, R |- *. lazy beta iota in H, R.
    destruct H as (tilt & pan & v & Ht & Hp & Hv & -> & ->).
    cbn [env np_random current_person current_tilt current_pan observation
         persons testing] in *.
    split; [apply R|]. split; [exact Hg|].
    split; [exists tilt, pan, v; repeat split; assumption|].
    repeat split; reflexivity.
  - split.
    + intros person. cbn [pool fst snd]. lia.
    + split.
      * intros person ct cp. apply drawn_any.
      * intros person ct cp tilt pan v. apply reset_any.
Qed.

Lemma sample_covered : covers Sample.data false.
Proof. apply coversb_spec. vm_compute. reflexivity. Qed.

Lemma reset_observation_witness :
  covers (persons (env Sample.fresh)) (testing (env Sample.fresh)) /\
  (exists obs w', reset Sample.fresh = (Ok obs, w')) /\
  reset Sample.fresh = (Ok [[(7, -30, -90)]], Sample.started) /\
  (fst (pool (testing (env Sample.fresh))) <= current_person (env Sample.started)
     < snd (pool (testing (env Sample.fresh))) /\
   in_grid (env Sample.started) /\
   (exists tilt pan v,
      Py.getitem tilts (current_tilt (env Sample.started)) = Ok tilt /\
      Py.getitem pans (current_pan (env Sample.started)) = Ok pan /\
      lookup_views (persons (env Sample.fresh)) (current_person (env Sample.started))
        tilt pan = Ok v /\
      [[(7, -30, -90)]] = sub_mean (fst v) /\
      observation (env Sample.started) = [[(7, -30, -90)]]) /\
   current_person (env Sample.started) =
     fst (if testing (env Sample.fresh)
          then Np.randint 20 30 (np_random Sample.fresh)
          else Np.randint 0 20 (np_random Sample.fresh)) /\
   current_tilt (env Sample.started) =
     fst (Np.randint 0 (Py.len tilts)
            (snd (if testing (env Sample.fresh)
                  then Np.randint 20 30 (np_random Sample.fresh)
                  else Np.randint 0 20 (np_random Sample.fresh)))) /\
   current_pan (env Sample.started) =
     fst (Np.randint 0 (Py.len pans)
            (snd (Np.randint 0 (Py.len tilts)
                    (snd (if testing (env Sample.fresh)
                          then Np.randint 20 30 (np_random Sample.fresh)
                          else Np.randint 0 20 (np_random Sample.fresh)))))) /\
   np_random Sample.started =
     snd (Np.randint 0 (Py.len pans)
            (snd (Np.randint 0 (Py.len tilts)
                    (snd (if testing (env Sample.fresh)
                          then Np.randint 20 30 (np_random Sample.fresh)
                          else Np.randint 0 20 (np_random Sample.fresh)))))) /\
   (current_person (env Sample.started), current_tilt (env Sample.started),
    current_pan (env Sample.started), np_random Sample.started)
     = drawn (testing (env Sample.fresh)) (np_random Sample.fresh) /\
   persons (env Sample.started) = persons (env Sample.fresh) /\
   testing (env Sample.started) = testing (env Sample.fresh)) /\
  (exists g w',
     reset (mkWorld (env Sample.fresh) g)
       = (Ok (sub_mean (fst (Sample.frame 12 60 90, Sample.frame 12 90 60))), w') /\
     current_person (env w') = 12 /\
     current_tilt (env w') = 6 /\
     current_pan (env w') = 12).
Proof.
  assert (Hc : covers (persons (env Sample.fresh)) (testing (env Sample.fresh)))
    by exact sample_covered.
  assert (H : reset Sample.fresh = (Ok [[(7, -30, -90)]], Sample.started))
    by (unfold Sample.started; apply (run_pair reset Sample.fresh);
        vm_compute; reflexivity).
  split; [exact Hc|].
  split; [exact (proj1 (reset_observation Sample.fresh) Hc)|].
  split; [exact H|].
  split; [exact (proj1 (proj2 (reset_observation Sample.fresh)) _ _ H)|].
  apply (proj2 (proj2 (proj2 (proj2 (reset_observation Sample.fresh))))
           12 6 12 60 90 (Sample.frame 12 60 90, Sample.frame 12 90 60)).
  - vm_compute. split; [discriminate | reflexivity].
  - vm_compute. split; [discriminate | reflexivity].
  - vm_compute. split; [discriminate | reflexivity].
  - vm_compute. reflexivity.
  - vm_compute. reflexivity.
  - vm_compute. reflexivity.
Defined.

(** ** Statistics across episodes *)

Lemma angles_inv (w w' : world) (t p : Z) :
  angles w = (Ok (t, p), w') ->
  w' = w /\
  Py.getitem tilts (current_tilt (env w)) = Ok t /\
  Py.getitem pans (current_pan (env w)) = Ok p.
Proof.
  intros H. unfold angles in H. repeat ok_step H.
  unfold ret in H. injection H as <- <- <-. repeat split; assumption.
Qed.

(** A returning [step] overwrites the last final-error entries with the new
    angles and leaves the other entries and the initial errors alone. *)
Lemma step_tracking (ft fp : list Z) (a : Z) (w w' : world) (o : outcome) :
  tracking ft fp (env w) -> step a w = (Ok o, w') ->
  tracking ft fp (env w') /\
  init_tilt_error (env w') = init_tilt_error (env w) /\
  init_pan_error (env w') = init_pan_error (env w).
Proof.
  intros (t0 & p0 & Hft & Hfp & _ & _) H.
  apply step_Ok in H as (_ & tilt & pan & fpe & fte & v & err & r & H).
  cbv zeta in H. destruct H as (Ht & Hp & Hsp & Hst & _ & _ & _ & _ & ->).
  rewrite Hfp, setitem_last in Hsp. rewrite Hft, setitem_last in Hst.
  injection Hsp as <-. injection Hst as <-.
  split; [|split; reflexivity].
  exists tilt, pan. cbn [env final_tilt_error final_pan_error current_tilt current_pan].
  repeat split; try reflexivity; assumption.
Qed.

Lemma steps_tracking (ft fp : list Z) (actions : list Z) (w w' : world) (u : unit) :
  tracking ft fp (env w) -> steps actions w = (Ok u, w') ->
  tracking ft fp (env w') /\
  init_tilt_error (env w') = init_tilt_error (env w) /\
  init_pan_error (env w') = init_pan_error (env w).
Proof.
  revert w. induction actions as [|a rest IH]; intros w Ht H.
  - injection H as _ <-. split; [exact Ht | split; reflexivity].
  - simpl steps in H. apply bind_Ok_inv in H as (o & w1 & Hs & H).
    destruct (step_tracking ft fp a w w1 o Ht Hs) as (Ht1 & Hi1 & Hi2).
    destruct (IH w1 Ht1 H) as (Ht' & Hi1' & Hi2').
    split; [exact Ht' | split; congruence].
Qed.

(** One episode appends one entry to each of the four sequences: the angles
    right after [reset] to the initial ones, the angles after the last [step]
    to the final ones. *)
Lemma episode_stats (actions : list Z) (w w' : world) (first last : Z * Z) :
  episode actions w = (Ok (first, last), w') ->
  init_tilt_error (env w') = init_tilt_error (env w) ++ [fst first] /\
  init_pan_error (env w') = init_pan_error (env w) ++ [snd first] /\
  final_tilt_error (env w') = final_tilt_error (env w) ++ [fst last] /\
  final_pan_error (env w') = final_pan_error (env w) ++ [snd last] /\
  (actions = [] -> last = first).
Proof.
  intros H. unfold episode in H.
  apply bind_Ok_inv in H as (obs & w0 & Hr & H).
  apply bind_Ok_inv in H as ([t0 p0] & w0' & Ha0 & H).
  apply bind_Ok_inv in H as (u & w1 & Hs & H).
  apply bind_Ok_inv in H as ([t1 p1] & w1' & Ha1 & H).
  unfold ret in H. injection H as <- <- <-.
  apply angles_inv in Ha0 as (-> & Ht0 & Hp0).
  apply angles_inv in Ha1 as (-> & Ht1 & Hp1).
  apply reset_Ok in Hr. cbv zeta in Hr.
  destruct (drawn (testing (env w)) (np_random w)) as [[[person ct] cp] g'].
  destruct Hr as (tilt & pan & v & Hgt & Hgp & _ & _ & ->).
  cbn [env current_tilt current_pan] in Ht0, Hp0.
  assert (tilt = t0) by congruence. assert (pan = p0) by congruence. subst tilt pan.
  assert (Htr : tracking (final_tilt_error (env w)) (final_pan_error (env w))
                  (env {|
                     env := mkEnv (persons (env w)) (testing (env w)) ct cp person []
                              (sub_mean v.1) v.2 (epoch_counter (env w) + 1) 0
                              (init_pan_error (env w) ++ [p0])
                              (init_tilt_error (env w) ++ [t0])
                              (final_pan_error (env w) ++ [p0])
                              (final_tilt_error (env w) ++ [t0])
                              (state_text t0 p0) "None" (interactive (env w));
                     np_random := g' |})).
  { exists t0, p0. cbn [env final_tilt_error final_pan_error current_tilt current_pan].
    repeat split; try reflexivity; assumption. }
  pose proof Hs as Hs'.
  apply (steps_tracking _ _ _ _ _ _ Htr) in Hs as ((t & p & Hft & Hfp & Ht & Hp) & Hi1 & Hi2).
  assert (t = t1) by congruence. assert (p = p1) by congruence. subst t p.
  cbn [env init_tilt_error init_pan_error fst snd] in *.
  repeat split; try assumption.
  intros ->. injection Hs' as _ <-.
  cbn [env current_tilt current_pan] in Ht1, Hp1. congruence.
Qed.

Lemma episodes_stats (plan : list (list Z)) (w w' : world)
    (log : list ((Z * Z) * (Z * Z))) :
  episodes plan w = (Ok log, w') ->
  init_tilt_error (env w') = init_tilt_error (env w) ++ map (fun s => fst (fst s)) log /\
  init_pan_error (env w') = init_pan_error (env w) ++ map (fun s => snd (fst s)) log /\
  final_tilt_error (env w') = final_tilt_error (env w) ++ map (fun s => fst (snd s)) log /\
  final_pan_error (env w') = final_pan_error (env w) ++ map (fun s => snd (snd s)) log /\
  Forall2 (fun actions s => actions = [] -> snd s = fst s) plan log.
Proof.
  revert w log. induction plan as [|actions rest IH]; intros w log H.
  - injection H as <- <-. cbn [map]. rewrite !app_nil_r.
    repeat split; try reflexivity. constructor.
  - simpl episodes in H.
    apply bind_Ok_inv in H as ([first last] & w1 & He & H).
    apply bind_Ok_inv in H as (others & w2 & Hrest & H).
    unfold ret in H. injection H as <- <-.
    apply episode_stats in He as (E1 & E2 & E3 & E4 & E5).
    apply IH in Hrest as (R1 & R2 & R3 & R4 & R5).
    cbn [map fst snd]. rewrite R1, R2, R3, R4, E1, E2, E3, E4.
    rewrite <- !app_assoc. repeat split; try reflexivity.
    constructor; assumption.
Qed.

(** Whether it returns or raises, a [step] leaves the initial errors and the
    lengths of the final errors as they are. *)
Lemma step_stats_frame (a : Z) (w : world) :
  init_tilt_error (env (snd (step a w))) = init_tilt_error (env w) /\
  init_pan_error (env (snd (step a w))) = init_pan_error (env w) /\
  length (final_tilt_error (env (snd (step a w)))) = length (final_tilt_error (env w)) /\
  length (final_pan_error (env (snd (step a w)))) = length (final_pan_error (env w)).
Proof.
  destruct (perform_frame a w) as (ct & cp & Hw1 & _).
  destruct (step a w) as [[o|x] w'] eqn:H; cbn [snd].
  - apply step_Ok in H as (_ & tilt & pan & fpe & fte & v & err & r & H).
    cbv zeta in H. destruct H as (_ & _ & Hsp & Hst & _ & _ & _ & _ & ->).
    apply setitem_length in Hsp, Hst.
    cbn [env init_tilt_error init_pan_error final_tilt_error final_pan_error].
    repeat split; try reflexivity; assumption.
  - apply step_Raise in H as (_ & txt & atxt & fpe & fte & -> & Hlp & Hlt).
    rewrite Hw1. read_fields. repeat split; try reflexivity; assumption.
Qed.

(** C8: on an object fresh from [__init__], after the N [reset]s of N
    episodes each of the four statistics sequences has N entries; the
    initial ones hold the angles right after each [reset], the final ones the
    angles after the last [step] of each episode, which are the initial ones
    when the episode had no [step]; and a [step], returning or raising, never
    changes the initial sequences nor the length of the final ones. *)
Theorem statistics_per_episode
    (data : dataset) (test inter : bool) (g : Np.RandomState) (w w' : world)
    (plan : list (list Z)) (log : list ((Z * Z) * (Z * Z))) :
  init data test inter g = Ok w ->
  episodes plan w = (Ok log, w') ->
  (length (init_tilt_error (env w')) = length plan /\
   length (init_pan_error (env w')) = length plan /\
   length (final_tilt_error (env w')) = length plan /\
   length (final_pan_error (env w')) = length plan) /\
  (init_tilt_error (env w') = map (fun s => fst (fst s)) log /\
   init_pan_error (env w') = map (fun s => snd (fst s)) log /\
   final_tilt_error (env w') = map (fun s => fst (snd s)) log /\
   final_pan_error (env w') = map (fun s => snd (snd s)) log) /\
  Forall2 (fun actions s => actions = [] -> snd s = fst s) plan log /\
  (forall a v,
     init_tilt_error (env (snd (step a v))) = init_tilt_error (env v) /\
     init_pan_error (env (snd (step a v))) = init_pan_error (env v) /\
     length (final_tilt_error (env (snd (step a v)))) = length (final_tilt_error (env v)) /\
     length (final_pan_error (env (snd (step a v)))) = length (final_pan_error (env v))).
Proof.
  intros Hi He.
  apply init_Ok in Hi as ((Hfp & Hft & _) & Hip & Hit & _).
  apply episodes_stats in He as (E1 & E2 & E3 & E4 & E5).
  rewrite Hit in E1. rewrite Hip in E2. rewrite Hft in E3. rewrite Hfp in E4.
  cbn [app] in E1, E2, E3, E4.
  pose proof (Forall2_length _ _ _ E5) as Hl.
  split.
  { rewrite E1, E2, E3, E4, !length_map. repeat split; symmetry; exact Hl. }
  split; [repeat split; assumption|].
  split; [exact E5|].
  intros a v. apply step_stats_frame.
Qed.

Lemma statistics_per_episode_witness :
  init Sample.data false false (Sample.gen Sample.draws) = Ok Sample.fresh /\
  episodes [[1; 3]; []; [2]] Sample.fresh
    = (Ok [((-30, -90), (-60, -90)); ((15, 0), (15, 0)); ((-15, 90), (0, 90))],
       snd (episodes [[1; 3]; []; [2]] Sample.fresh)) /\
  let w' := snd (episodes [[1; 3]; []; [2]] Sample.fresh) in
  let log := [((-30, -90), (-60, -90)); ((15, 0), (15, 0)); ((-15, 90), (0, 90))] in
  (length (init_tilt_error (env w')) = 3%nat /\
   length (init_pan_error (env w')) = 3%nat /\
   length (final_tilt_error (env w')) = 3%nat /\
   length (final_pan_error (env w')) = 3%nat) /\
  (init_tilt_error (env w') = map (fun s => fst (fst s)) log /\
   init_pan_error (env w') = map (fun s => snd (fst s)) log /\
   final_tilt_error (env w') = map (fun s => fst (snd s)) log /\
   final_pan_error (env w') = map (fun s => snd (snd s)) log) /\
  Forall2 (fun actions s => actions = [] -> snd s = fst s) [[1; 3]; []; [2]] log /\
  (forall a v,
     init_tilt_error (env (snd (step a v))) = init_tilt_error (env v) /\
     init_pan_error (env (snd (step a v))) = init_pan_error (env v) /\
     length (final_tilt_error (env (snd (step a v)))) = length (final_tilt_error (env v)) /\
     length (final_pan_error (env (snd (step a v)))) = length (final_pan_error (env v))).
Proof.
  assert (H : episodes [[1; 3]; []; [2]] Sample.fresh
              = (Ok [((-30, -90), (-60, -90)); ((15, 0), (15, 0)); ((-15, 90), (0, 90))],
                 snd (episodes [[1; 3]; []; [2]] Sample.fresh)))
    by (apply (run_pair (episodes [[1; 3]; []; [2]]) Sample.fresh);
        vm_compute; reflexivity).
  split; [exact init_sample|]. split; [exact H|].
  exact (statistics_per_episode Sample.data false false (Sample.gen Sample.draws)
           Sample.fresh _ [[1; 3]; []; [2]] _ init_sample H).
Defined.

(** * Further properties *)

(** ** Which call raises what *)

(** The place where a [step] has raised, and the world it has left there. *)
Lemma step_Raise_cause (a : Z) (w w' : world) (x : exn) :
  step a w = (Raise x, w') ->
  let e1 := env (snd (perform a w)) in
  (x = AssertionError /\ ~ valid_action a /\ w' = w) \/
  (valid_action a /\
   ((Py.getitem tilts (current_tilt e1) = Raise x /\ w' = snd (perform a w)) \/
    (exists tilt,
       Py.getitem tilts (current_tilt e1) = Ok tilt /\
       Py.getitem pans (current_pan e1) = Raise x /\ w' = snd (perform a w)) \/
    (exists tilt pan,
       Py.getitem tilts (current_tilt e1) = Ok tilt /\
       Py.getitem pans (current_pan e1) = Ok pan /\
       let e2 := set_action_text (text_of_action a)
                   (set_current_state_text (state_text tilt pan) e1) in
       ((Py.setitem (final_pan_error (env w)) (-1) pan = Raise x /\
         w' = mkWorld e2 (np_random w)) \/
        (exists fpe,
           Py.setitem (final_pan_error (env w)) (-1) pan = Ok fpe /\
           ((Py.setitem (final_tilt_error (env w)) (-1) tilt = Raise x /\
             w' = mkWorld (set_final_pan_error fpe e2) (np_random w)) \/
            (exists fte,
               Py.setitem (final_tilt_error (env w)) (-1) tilt = Ok fte /\
               lookup_views (persons (env w)) (current_person (env w)) tilt pan
                 = Raise x /\
               w' = mkWorld (set_final_tilt_error fte (set_final_pan_error fpe e2))
                      (np_random w)))))))).
Proof.
  intros H. unfold step in H.
  destruct (perform_frame a w) as (ct & cp & Hw1 & _).
  repeat any_step H.
  all: try (unfold ret in H; discriminate).
  all: try (rewrite calc_error_Ok in *; discriminate).
  all: try match goal with
           | Hs : shape ?m ?r = Raise _ |- _ =>
               destruct (shape_total m r); congruence
           end.
  all: match goal with
       | Hp : perform _ _ = (Raise _, _) |- _ =>
           rewrite Hp in *; cbn [snd] in *;
           apply perform_Raise in Hp as (-> & Hv & ->)
       | Hp : perform _ _ = (Ok _, _) |- _ =>
           pose proof (perform_Ok _ _ _ _ Hp) as Hv;
           rewrite Hp in *; cbn [snd] in *; subst
       end.
  all: cbv zeta; read_fields.
  - right. split; [exact Hv|]. right; right. do 2 eexists.
    split; [eassumption|]. split; [eassumption|].
    right. eexists. split; [eassumption|]. right. eexists.
    split; [eassumption|]. split; [eassumption|]. reflexivity.
  - right. split; [exact Hv|]. right; right. do 2 eexists.
    split; [eassumption|]. split; [eassumption|].
    right. eexists. split; [eassumption|]. left. split; [assumption | reflexivity].
  - right. split; [exact Hv|]. right; right. do 2 eexists.
    split; [eassumption|]. split; [eassumption|].
    left. split; [assumption | reflexivity].
  - right. split; [exact Hv|]. right; left. eexists.
    split; [eassumption|]. split; [assumption | reflexivity].
  - right. split; [exact Hv|]. left. split; [assumption | reflexivity].
  - left. repeat split; assumption || reflexivity.
Qed.

Lemma nonempty_snoc {A : Type} (l : list A) :
  l <> [] -> exists front x, l = front ++ [x].
Proof.
  destruct l as [|x front _] using rev_ind; [congruence | eauto].
Qed.

(** The angles at the indices a [step] moves to, on an object whose indices
    are in the grid. *)
Lemma angles_after_perform (a : Z) (w : world) :
  in_grid (env w) ->
  exists tilt pan,
    Py.getitem tilts (current_tilt (env (snd (perform a w)))) = Ok tilt /\
    Py.getitem pans (current_pan (env (snd (perform a w)))) = Ok pan.
Proof.
  intros Hg. destruct (perform_frame a w) as (ct & cp & -> & Hr).
  destruct (Hr Hg) as [Rt Rp]. read_fields.
  destruct (getitem_in_range tilts ct Rt) as (tilt & Ht & _).
  destruct (getitem_in_range pans cp Rp) as (pan & Hp & _).
  eauto.
Qed.

(** X2: on an object a [reset] has prepared, a [step] with a valid action
    raises exactly when the dataset has no view of the current person at
    the angles moved to, and then it is [KeyError]; by then the indices have
    moved, the state text is rewritten and the last final errors are
    overwritten, while observation, error memory and step counter are as
    before. *)
Theorem step_outcome (a : Z) (w : world) :
  valid_action a -> in_grid (env w) ->
  final_pan_error (env w) <> [] -> final_tilt_error (env w) <> [] ->
  let w' := snd (step a w) in
  exists tilt pan,
    Py.getitem tilts (current_tilt (env w')) = Ok tilt /\
    Py.getitem pans (current_pan (env w')) = Ok pan /\
    match lookup_views (persons (env w)) (current_person (env w)) tilt pan with
    | Ok v => exists reward, fst (step a w) = Ok (sub_mean (fst v), reward, false, ∅)
    | Raise _ =>
        fst (step a w) = Raise KeyError /\
        current_state_text (env w') = state_text tilt pan /\
        last (final_tilt_error (env w')) = Some tilt /\
        last (final_pan_error (env w')) = Some pan /\
        observation (env w') = observation (env w) /\
        render_observation (env w') = render_observation (env w) /\
        error_memory (env w') = error_memory (env w) /\
        iteration_counter (env w') = iteration_counter (env w)
    end.
Proof.
  intros Ha Hg Hfp Hft w'.
  destruct (angles_after_perform a w Hg) as (tilt & pan & Ht & Hp).
  pose proof (step_indices a w) as Hi. unfold indices in Hi.
  injection Hi as Hit Hip. fold w' in Hit, Hip.
  exists tilt, pan. rewrite Hit, Hip.
  split; [exact Ht|]. split; [exact Hp|].
  destruct (nonempty_snoc _ Hfp) as (fpf & fpx & Efp).
  destruct (nonempty_snoc _ Hft) as (ftf & ftx & Eft).
  pose proof (setitem_last fpf fpx pan) as Sp. rewrite <- Efp in Sp.
  pose proof (setitem_last ftf ftx tilt) as St. rewrite <- Eft in St.
  subst w'.
  destruct (step a w) as [[o|x] w1] eqn:H; cbn [fst snd].
  - apply step_Ok in H as (_ & t & p & fpe & fte & v & err & r & H).
    cbv zeta in H. destruct H as (Ht' & Hp' & _ & _ & Hv & _ & _ & -> & _).
    assert (t = tilt) by congruence. assert (p = pan) by congruence. subst t p.
    rewrite Hv. eauto.
  - apply step_Raise_cause in H. cbv zeta in H.
    destruct H as [(_ & Hn & _)|(_ & H)]; [contradiction|].
    destruct H as [(H & _)|[(t & _ & H & _)|(t & p & Ht' & Hp' & H)]];
      [congruence | congruence |].
    assert (t = tilt) by congruence. assert (p = pan) by congruence. subst t p.
    destruct H as [(H & _)|(fpe & Hsp & H)]; [congruence|].
    destruct H as [(H & _)|(fte & Hst & Hv & ->)]; [congruence|].
    rewrite Hv. pose proof (lookup_views_Raise _ _ _ _ _ Hv) as ->.
    rewrite Sp in Hsp. rewrite St in Hst.
    injection Hsp as <-. injection Hst as <-.
    destruct (perform_frame a w) as (ct & cp & -> & _). read_fields.
    rewrite !last_snoc. repeat split; reflexivity.
Qed.

Lemma step_outcome_witness :
  valid_action 1 /\ in_grid (env Gaps.started) /\
  final_pan_error (env Gaps.started) <> [] /\
  final_tilt_error (env Gaps.started) <> [] /\
  let w' := snd (step 1 Gaps.started) in
  exists tilt pan,
    Py.getitem tilts (current_tilt (env w')) = Ok tilt /\
    Py.getitem pans (current_pan (env w')) = Ok pan /\
    match lookup_views (persons (env Gaps.started))
            (current_person (env Gaps.started)) tilt pan with
    | Ok v => exists reward,
                fst (step 1 Gaps.started) = Ok (sub_mean (fst v), reward, false, ∅)
    | Raise _ =>
        fst (step 1 Gaps.started) = Raise KeyError /\
        current_state_text (env w') = state_text tilt pan /\
        last (final_tilt_error (env w')) = Some tilt /\
        last (final_pan_error (env w')) = Some pan /\
        observation (env w') = observation (env Gaps.started) /\
        render_observation (env w') = render_observation (env Gaps.started) /\
        error_memory (env w') = error_memory (env Gaps.started) /\
        iteration_counter (env w') = iteration_counter (env Gaps.started)
    end.
Proof.
  assert (Ha : valid_action 1) by (unfold valid_action; lia).
  assert (Hg : in_grid (env Gaps.started)).
  { apply (reset_in_grid Gaps.fresh Gaps.started [[(7, -30, -90)]]).
    unfold Gaps.started. apply (run_pair reset Gaps.fresh). vm_compute. reflexivity. }
  assert (Hp : final_pan_error (env Gaps.started) <> []).
  { assert (E : final_pan_error (env Gaps.started) = [-90]) by (vm_compute; reflexivity).
    rewrite E. discriminate. }
  assert (Ht : final_tilt_error (env Gaps.started) <> []).
  { assert (E : final_tilt_error (env Gaps.started) = [-30]) by (vm_compute; reflexivity).
    rewrite E. discriminate. }
  split; [exact Ha|]. split; [exact Hg|]. split; [exact Hp|]. split; [exact Ht|].
  exact (step_outcome 1 Gaps.started Ha Hg Hp Ht).
Defined.

(** ** Runs that never raise *)

(** A [step] returns when the action is valid, the indices moved to denote
    angles, the final-error sequences are not empty and the dataset has the
    view. *)
Lemma step_returns (a : Z) (w : world) (tilt pan : Z) (v : image * image) :
  valid_action a ->
  Py.getitem tilts (current_tilt (env (snd (perform a w)))) = Ok tilt ->
  Py.getitem pans (current_pan (env (snd (perform a w)))) = Ok pan ->
  final_pan_error (env w) <> [] -> final_tilt_error (env w) <> [] ->
  lookup_views (persons (env w)) (current_person (env w)) tilt pan = Ok v ->
  exists o w', step a w = (Ok o, w').
Proof.
  intros Ha Ht Hp Hfp Hft Hv.
  destruct (nonempty_snoc _ Hfp) as (fpf & fpx & Efp).
  destruct (nonempty_snoc _ Hft) as (ftf & ftx & Eft).
  pose proof (setitem_last fpf fpx pan) as Sp. rewrite <- Efp in Sp.
  pose proof (setitem_last ftf ftx tilt) as St. rewrite <- Eft in St.
  destruct (step a w) as [[o|x] w1] eqn:H; [eauto|].
  apply step_Raise_cause in H. cbv zeta in H.
  destruct H as [(_ & Hn & _)|(_ & H)]; [contradiction|].
  destruct H as [(H & _)|[(t & _ & H & _)|(t & p & Ht' & Hp' & H)]];
    [congruence | congruence |].
  assert (t = tilt) by congruence. assert (p = pan) by congruence. subst t p.
  destruct H as [(H & _)|(fpe & Hsp & H)]; [congruence|].
  destruct H as [(H & _)|(fte & Hst & Hv' & _)]; congruence.
Qed.

Lemma step_prepared (d : dataset) (test : bool) (a : Z) (w : world) :
  covers d test -> prepared d test (env w) -> valid_action a ->
  exists o w', step a w = (Ok o, w') /\ prepared d test (env w').
Proof.
  intros Hc (Hd & Hm & Hg & Hfp & Hft & Hpool) Ha.
  destruct (angles_after_perform a w Hg) as (tilt & pan & Ht & Hp).
  destruct (Hc (current_person (env w)) tilt pan Hpool
              (getitem_elem_of _ _ _ Ht) (getitem_elem_of _ _ _ Hp)) as [v Hv].
  rewrite <- Hd in Hv.
  destruct (step_returns a w tilt pan v Ha Ht Hp Hfp Hft Hv) as (o & w' & H).
  exists o, w'. split; [exact H|].
  pose proof (step_in_grid a w Hg) as Hg'. rewrite H in Hg'. cbn [snd] in Hg'.
  apply step_Ok in H as (_ & t & p & fpe & fte & u & err & r & H).
  cbv zeta in H. destruct H as (_ & _ & Hsp & Hst & _ & _ & _ & _ & ->).
  apply setitem_ok_last in Hsp as (f1 & x1 & _ & ->).
  apply setitem_ok_last in Hst as (f2 & x2 & _ & ->).
  unfold prepared in *. cbn [env persons testing final_pan_error final_tilt_error
                             current_person] in *.
  repeat split; try assumption; try apply Hg'; try apply Hpool.
  - intros E. apply app_eq_nil in E as [_ E]. discriminate.
  - intros E. apply app_eq_nil in E as [_ E]. discriminate.
Qed.

Lemma steps_prepared (d : dataset) (test : bool) (actions : list Z) (w : world) :
  covers d test -> prepared d test (env w) -> Forall valid_action actions ->
  exists w', steps actions w = (Ok tt, w') /\ prepared d test (env w').
Proof.
  intros Hc. revert w. induction actions as [|a rest IH]; intros w Hp Hv.
  - exists w. split; [reflexivity | exact Hp].
  - apply Forall_cons in Hv as [Ha Hv].
    destruct (step_prepared d test a w Hc Hp Ha) as (o & w1 & Hs & Hp1).
    destruct (IH w1 Hp1 Hv) as (w' & Hr & Hp').
    exists w'. split; [|exact Hp'].
    simpl steps. unfold bind. rewrite Hs. exact Hr.
Qed.

Lemma reset_prepared (d : dataset) (test : bool) (w : world) :
  covers d test -> persons (env w) = d -> testing (env w) = test ->
  exists obs w', reset w = (Ok obs, w') /\ prepared d test (env w').
Proof.
  intros Hc Hd Hm.
  destruct (reset_total w) as (obs & w' & H); [rewrite Hd, Hm; exact Hc|].
  exists obs, w'. split; [exact H|].
  pose proof (reset_in_grid _ _ _ H) as Hg.
  apply reset_Ok in H. cbv zeta in H.
  pose proof (drawn_range (testing (env w)) (np_random w)) as R.
  destruct (drawn (testing (env w)) (np_random w)) as [[[person ct] cp] g'].
  destruct H as (tilt & pan & v & _ & _ & _ & _ & ->).
  unfold prepared. cbn [env persons testing final_pan_error final_tilt_error
                        current_person] in *.
  rewrite Hm in R.
  repeat split; try assumption; try apply Hg; try apply R.
  - intros E. apply app_eq_nil in E as [_ E]. discriminate.
  - intros E. apply app_eq_nil in E as [_ E]. discriminate.
Qed.

Lemma angles_returns (w : world) :
  in_grid (env w) -> exists ts, angles w = (Ok ts, w).
Proof.
  intros [Rt Rp].
  destruct (getitem_in_range tilts _ Rt) as (tilt & Ht & _).
  destruct (getitem_in_range pans _ Rp) as (pan & Hp & _).
  exists (tilt, pan). unfold angles, bind, self, lift, ret. cbn [fst snd].
  rewrite Ht, Hp. reflexivity.
Qed.

Lemma episode_prepared (d : dataset) (test : bool) (actions : list Z) (w : world) :
  covers d test -> persons (env w) = d -> testing (env w) = test ->
  Forall valid_action actions ->
  exists seen w', episode actions w = (Ok seen, w') /\ prepared d test (env w').
Proof.
  intros Hc Hd Hm Hv.
  destruct (reset_prepared d test w Hc Hd Hm) as (obs & w0 & Hr & Hp0).
  destruct (angles_returns w0) as (first & Ha0); [apply Hp0|].
  destruct (steps_prepared d test actions w0 Hc Hp0 Hv) as (w1 & Hs & Hp1).
  destruct (angles_returns w1) as (last & Ha1); [apply Hp1|].
  exists (first, last), w1. split; [|exact Hp1].
  unfold episode, bind. rewrite Hr, Ha0, Hs, Ha1. reflexivity.
Qed.

(** X1: on a dataset that covers the pool of the mode, a training run on a
    fresh object never raises: every episode of valid actions runs to its
    end, whatever the generator draws. *)
Theorem run_never_raises
    (d : dataset) (test inter : bool) (g : Np.RandomState) (w : world)
    (plan : list (list Z)) :
  covers d test -> init d test inter g = Ok w ->
  Forall (Forall valid_action) plan ->
  exists log w', episodes plan w = (Ok log, w').
Proof.
  intros Hc Hi Hv. apply init_Ok in Hi as (_ & _ & _ & Hd & Hm).
  revert w Hd Hm. induction Hv as [|actions rest Ha _ IH]; intros w Hd Hm.
  - exists [], w. reflexivity.
  - destruct (episode_prepared d test actions w Hc Hd Hm Ha)
      as (seen & w1 & He & (Hd1 & Hm1 & _)).
    destruct (IH w1 Hd1 Hm1) as (others & w' & Hr).
    exists (seen :: others), w'.
    simpl episodes. unfold bind. rewrite He, Hr. reflexivity.
Qed.

Lemma actions_of_the_plan :
  Forall (Forall valid_action) [[1; 3]; []; [2; 4; 0]].
Proof.
  repeat (constructor; try (unfold valid_action; lia)).
Qed.

Lemma run_never_raises_witness :
  covers Sample.data false /\
  init Sample.data false false (Sample.gen Sample.draws) = Ok Sample.fresh /\
  Forall (Forall valid_action) [[1; 3]; []; [2; 4; 0]] /\
  exists log w', episodes [[1; 3]; []; [2; 4; 0]] Sample.fresh = (Ok log, w').
Proof.
  split; [exact sample_covered|]. split; [exact init_sample|].
  split; [exact actions_of_the_plan|].
  exact (run_never_raises Sample.data false false (Sample.gen Sample.draws)
           Sample.fresh [[1; 3]; []; [2; 4; 0]]
           sample_covered init_sample actions_of_the_plan).
Defined.

(** ** What [step] returns *)

(** X3: a [step] that returns hands back, and keeps in the object, the
    dataset's frame of the current person at the angles moved to, minus the
    mean vector; it keeps the display image that comes with the frame; it
    changes neither person nor dataset, and its info is empty. *)
Theorem step_observation (a : Z) (w w' : world)
    (obs : image) (reward : float) (done : bool) (i : info) :
  step a w = (Ok (obs, reward, done, i), w') ->
  exists tilt pan v,
    Py.getitem tilts (current_tilt (env w')) = Ok tilt /\
    Py.getitem pans (current_pan (env w')) = Ok pan /\
    lookup_views (persons (env w)) (current_person (env w)) tilt pan = Ok v /\
    obs = sub_mean (fst v) /\
    observation (env w') = obs /\
    render_observation (env w') = snd v /\
    current_person (env w') = current_person (env w) /\
    persons (env w') = persons (env w) /\
    i = ∅.
Proof.
  intros H. apply step_Ok in H as (_ & tilt & pan & fpe & fte & v & err & r & H).
  cbv zeta in H. destruct H as (Ht & Hp & _ & _ & Hv & _ & _ & Ho & ->).
  injection Ho as -> _ _ ->. exists tilt, pan, v.
  cbn [env current_tilt current_pan observation render_observation current_person
       persons].
  repeat split; assumption.
Qed.

Lemma step_observation_witness :
  step 4 Sample.started
    = (Ok ([[(7, -30, -75)]], 0%float, false, ∅), snd (step 4 Sample.started)) /\
  exists tilt pan v,
    Py.getitem tilts (current_tilt (env (snd (step 4 Sample.started)))) = Ok tilt /\
    Py.getitem pans (current_pan (env (snd (step 4 Sample.started)))) = Ok pan /\
    lookup_views (persons (env Sample.started)) (current_person (env Sample.started))
      tilt pan = Ok v /\
    [[(7, -30, -75)]] = sub_mean (fst v) /\
    observation (env (snd (step 4 Sample.started))) = [[(7, -30, -75)]] /\
    render_observation (env (snd (step 4 Sample.started))) = snd v /\
    current_person (env (snd (step 4 Sample.started)))
      = current_person (env Sample.started) /\
    persons (env (snd (step 4 Sample.started))) = persons (env Sample.started) /\
    (∅ : info) = ∅.
Proof.
  assert (H : step 4 Sample.started
              = (Ok ([[(7, -30, -75)]], 0%float, false, ∅), snd (step 4 Sample.started)))
    by (apply (run_pair (step 4) Sample.started); vm_compute; reflexivity).
  split; [exact H|].
  exact (step_observation 4 Sample.started _ _ _ _ _ H).
Defined.

(** ** A [reset] that raises *)




(** ** How the camera moves *)

Lemma step_moves_indices (a : Z) (w : world) :
  indices (env (snd (step a w))) =
    (if a =? 1 then Z.max 0 (current_tilt (env w) - 1)
     else if a =? 2 then Z.min (Py.len tilts - 1) (current_tilt (env w) + 1)
     else current_tilt (env w),
     if a =? 3 then Z.max 0 (current_pan (env w) - 1)
     else if a =? 4 then Z.min (Py.len pans - 1) (current_pan (env w) + 1)
     else current_pan (env w)).
Proof.
  rewrite step_indices, perform_cases. open_world w.
  destruct (Z.eqb_spec a 0) as [->|H0]; [reflexivity|].
  destruct (Z.eqb_spec a 1) as [->|H1]; [reflexivity|].
  destruct (Z.eqb_spec a 2) as [->|H2]; [reflexivity|].
  destruct (Z.eqb_spec a 3) as [->|H3]; [reflexivity|].
  destruct (Z.eqb_spec a 4) as [->|H4]; reflexivity.
Qed.

(** X5: on indices inside the grid a [step], returning or raising, changes
    at most one index and by at most one: actions 1 and 2 move the tilt index
    down and up, 3 and 4 the pan index, each by exactly one unless the edge is
    in the way; any other action moves nothing.  Opposite actions undo each
    other whenever the first has moved. *)
Theorem step_moves_one (a : Z) (w : world) :
  in_grid (env w) ->
  let ct := current_tilt (env w) in
  let cp := current_pan (env w) in
  let ct' := current_tilt (env (snd (step a w))) in
  let cp' := current_pan (env (snd (step a w))) in
  Z.abs (ct' - ct) + Z.abs (cp' - cp) <= 1 /\
  (a = 1 -> cp' = cp /\ (0 < ct -> ct' = ct - 1)) /\
  (a = 2 -> cp' = cp /\ (ct < Py.len tilts - 1 -> ct' = ct + 1)) /\
  (a = 3 -> ct' = ct /\ (0 < cp -> cp' = cp - 1)) /\
  (a = 4 -> ct' = ct /\ (cp < Py.len pans - 1 -> cp' = cp + 1)) /\
  (a = 0 \/ ~ valid_action a -> ct' = ct /\ cp' = cp) /\
  (0 < ct -> indices (env (attempts [1; 2] w)) = indices (env w)) /\
  (ct < Py.len tilts - 1 -> indices (env (attempts [2; 1] w)) = indices (env w)) /\
  (0 < cp -> indices (env (attempts [3; 4] w)) = indices (env w)) /\
  (cp < Py.len pans - 1 -> indices (env (attempts [4; 3] w)) = indices (env w)).
Proof.
  intros [Rt Rp] ct cp ct' cp'.
  pose proof (step_moves_indices a w) as Hm. unfold indices in Hm.
  injection Hm as Ht Hp. fold ct' in Ht. fold cp' in Hp. fold ct in Ht. fold cp in Hp.
  fold ct in Rt. fold cp in Rp.
  assert (L7 : Py.len tilts = 7) by reflexivity.
  assert (L13 : Py.len pans = 13) by reflexivity.
  rewrite L7 in *. rewrite L13 in *.
  split.
  { rewrite Ht, Hp.
    destruct (Z.eqb_spec a 1), (Z.eqb_spec a 2), (Z.eqb_spec a 3), (Z.eqb_spec a 4);
      lia. }
  split.
  { intros ->. rewrite Ht, Hp. cbn. lia. }
  split.
  { intros ->. rewrite Ht, Hp. cbn. lia. }
  split.
  { intros ->. rewrite Ht, Hp. cbn. lia. }
  split.
  { intros ->. rewrite Ht, Hp. cbn. lia. }
  split.
  { intros Ha. rewrite Ht, Hp. unfold valid_action in Ha.
    destruct (Z.eqb_spec a 1), (Z.eqb_spec a 2), (Z.eqb_spec a 3), (Z.eqb_spec a 4);
      lia. }
  cbn [attempts]. rewrite !step_moves_indices. unfold indices.
  pose proof (step_moves_indices 1 w) as M1. pose proof (step_moves_indices 2 w) as M2.
  pose proof (step_moves_indices 3 w) as M3. pose proof (step_moves_indices 4 w) as M4.
  unfold indices in M1, M2, M3, M4.
  injection M1 as -> ->. injection M2 as -> ->.
  injection M3 as -> ->. injection M4 as -> ->.
  rewrite L7, L13. fold ct cp. cbn [Z.eqb Pos.eqb].
  repeat split; intros; f_equal; lia.
Qed.

Lemma step_moves_one_witness :
  in_grid (env Sample.started) /\
  let ct := current_tilt (env Sample.started) in
  let cp := current_pan (env Sample.started) in
  let ct' := current_tilt (env (snd (step 2 Sample.started))) in
  let cp' := current_pan (env (snd (step 2 Sample.started))) in
  Z.abs (ct' - ct) + Z.abs (cp' - cp) <= 1 /\
  (2 = 1 -> cp' = cp /\ (0 < ct -> ct' = ct - 1)) /\
  (2 = 2 -> cp' = cp /\ (ct < Py.len tilts - 1 -> ct' = ct + 1)) /\
  (2 = 3 -> ct' = ct /\ (0 < cp -> cp' = cp - 1)) /\
  (2 = 4 -> ct' = ct /\ (cp < Py.len pans - 1 -> cp' = cp + 1)) /\
  (2 = 0 \/ ~ valid_action 2 -> ct' = ct /\ cp' = cp) /\
  (0 < ct -> indices (env (attempts [1; 2] Sample.started))
             = indices (env Sample.started)) /\
  (ct < Py.len tilts - 1 -> indices (env (attempts [2; 1] Sample.started))
                            = indices (env Sample.started)) /\
  (0 < cp -> indices (env (attempts [3; 4] Sample.started))
             = indices (env Sample.started)) /\
  (cp < Py.len pans - 1 -> indices (env (attempts [4; 3] Sample.started))
                           = indices (env Sample.started)).
Proof.
  assert (Hg : in_grid (env Sample.started)).
  { apply (reset_in_grid Sample.fresh Sample.started [[(7, -30, -90)]]).
    unfold Sample.started. apply (run_pair reset Sample.fresh). vm_compute. reflexivity. }
  split; [exact Hg|].
  exact (step_moves_one 2 Sample.started Hg).
Defined.

(** ** The counters *)

Lemma step_counters (a : Z) (w w' : world) (o : outcome) :
  step a w = (Ok o, w') ->
  epoch_counter (env w') = epoch_counter (env w) /\
  iteration_counter (env w') = iteration_counter (env w) + 1 /\
  length (error_memory (env w')) = S (length (error_memory (env w))).
Proof.
  intros H. apply step_Ok in H as (_ & tilt & pan & fpe & fte & v & err & r & H).
  cbv zeta in H. destruct H as (_ & _ & _ & _ & _ & _ & _ & _ & ->).
  cbn [env epoch_counter iteration_counter error_memory].
  rewrite length_app. simpl. repeat split; lia.
Qed.

Lemma step_Raise_counters (a : Z) (w w' : world) (x : exn) :
  step a w = (Raise x, w') ->
  epoch_counter (env w') = epoch_counter (env w) /\
  iteration_counter (env w') = iteration_counter (env w) /\
  error_memory (env w') = error_memory (env w).
Proof.
  intros H. apply step_Raise in H as (_ & txt & atxt & fpe & fte & -> & _).
  destruct (perform_frame a w) as (ct & cp & -> & _). read_fields.
  repeat split; reflexivity.
Qed.

Lemma steps_counters (actions : list Z) (w w' : world) (u : unit) :
  steps actions w = (Ok u, w') ->
  epoch_counter (env w') = epoch_counter (env w) /\
  iteration_counter (env w') = iteration_counter (env w) + Py.len actions /\
  length (error_memory (env w'))
    = (length (error_memory (env w)) + length actions)%nat.
Proof.
  revert w. induction actions as [|a rest IH]; intros w H.
  - injection H as _ <-. unfold Py.len. simpl. repeat split; lia.
  - simpl steps in H. apply bind_Ok_inv in H as (o & w1 & Hs & H).
    apply step_counters in Hs as (E1 & I1 & M1).
    apply IH in H as (E2 & I2 & M2).
    unfold Py.len in *. rewrite E2, I2, M2, E1, I1, M1. simpl length.
    repeat split; lia.
Qed.

Lemma episode_counters (actions : list Z) (w w' : world) (seen : (Z * Z) * (Z * Z)) :
  episode actions w = (Ok seen, w') ->
  epoch_counter (env w') = epoch_counter (env w) + 1 /\
  iteration_counter (env w') = Py.len actions /\
  length (error_memory (env w')) = length actions.
Proof.
  intros H. unfold episode in H.
  apply bind_Ok_inv in H as (obs & w0 & Hr & H).
  apply bind_Ok_inv in H as ([t0 p0] & w0' & Ha0 & H).
  apply bind_Ok_inv in H as (u & w1 & Hs & H).
  apply bind_Ok_inv in H as ([t1 p1] & w1' & Ha1 & H).
  unfold ret in H. injection H as _ <-.
  apply angles_inv in Ha0 as (-> & _). apply angles_inv in Ha1 as (-> & _).
  apply steps_counters in Hs as (E & I & M). rewrite E, I, M.
  apply reset_Ok in Hr. cbv zeta in Hr.
  destruct (drawn (testing (env w)) (np_random w)) as [[[person ct] cp] g'].
  destruct Hr as (tilt & pan & v & _ & _ & _ & _ & ->).
  cbn [env epoch_counter iteration_counter error_memory]. simpl length.
  repeat split; lia.
Qed.

Lemma episodes_counters (plan : list (list Z)) (w w' : world)
    (log : list ((Z * Z) * (Z * Z))) :
  episodes plan w = (Ok log, w') ->
  epoch_counter (env w') = epoch_counter (env w) + Py.len plan /\
  match last plan with
  | Some actions =>
      iteration_counter (env w') = Py.len actions /\
      length (error_memory (env w')) = length actions
  | None => w' = w
  end.
Proof.
  revert w log. induction plan as [|actions rest IH]; intros w log H.
  - injection H as _ <-. unfold Py.len. simpl. split; [lia | reflexivity].
  - simpl episodes in H.
    apply bind_Ok_inv in H as (seen & w1 & He & H).
    apply bind_Ok_inv in H as (others & w2 & Hrest & H).
    unfold ret in H. injection H as _ <-.
    apply episode_counters in He as (E1 & I1 & M1).
    apply IH in Hrest as (E2 & L2).
    unfold Py.len in *. rewrite E2, E1. simpl length.
    split; [lia|].
    destruct rest as [|next rest'].
    + cbn [last] in *. subst w2. split; assumption.
    + rewrite last_cons_cons.
      destruct (last (next :: rest')) as [final|] eqn:El; [exact L2|].
      apply last_None in El. discriminate.
Qed.

(** X6: on an object fresh from [__init__], after a run of episodes
    [epoch_counter] is the number of [reset]s minus one, [iteration_counter]
    is the number of [step]s of the last episode, and the error memory has
    as many entries; a [step] that raises counts for nothing and leaves the
    error memory as it is. *)
Theorem counters_count
    (data : dataset) (test inter : bool) (g : Np.RandomState) (w w' : world)
    (plan : list (list Z)) (log : list ((Z * Z) * (Z * Z))) :
  init data test inter g = Ok w ->
  episodes plan w = (Ok log, w') ->
  epoch_counter (env w') = Py.len plan - 1 /\
  iteration_counter (env w') = Py.len (default [] (last plan)) /\
  Py.len (error_memory (env w')) = iteration_counter (env w') /\
  (forall a v x v',
     step a v = (Raise x, v') ->
     epoch_counter (env v') = epoch_counter (env v) /\
     iteration_counter (env v') = iteration_counter (env v) /\
     error_memory (env v') = error_memory (env v)).
Proof.
  intros Hi He.
  assert (H0 : epoch_counter (env w) = -1 /\ iteration_counter (env w) = 0
               /\ error_memory (env w) = []).
  { unfold init in Hi.
    destruct (if test then Np.randint 20 30 g else Np.randint 0 20 g) as [person g'].
    change (Py.getitem tilts 0) with (Ok (-60) : result Z) in Hi.
    change (Py.getitem pans 0) with (Ok (-90) : result Z) in Hi.
    injection Hi as <-. repeat split; reflexivity. }
  destruct H0 as (E0 & I0 & M0).
  apply episodes_counters in He as (E & L).
  split; [lia|].
  destruct (last plan) as [actions|]; cbn [default].
  - destruct L as (I & M). unfold Py.len in *. rewrite I, M.
    split; [reflexivity|]. split; [reflexivity|].
    intros a v x v'. apply step_Raise_counters.
  - subst w'. unfold Py.len. rewrite I0, M0. simpl.
    split; [reflexivity|]. split; [reflexivity|].
    intros a v x v'. apply step_Raise_counters.
Qed.

Lemma counters_count_witness :
  init Sample.data false false (Sample.gen Sample.draws) = Ok Sample.fresh /\
  episodes [[1; 3]; []; [2; 4; 0]] Sample.fresh
    = (Ok [((-30, -90), (-60, -90)); ((15, 0), (15, 0)); ((-15, 90), (0, 90))],
       snd (episodes [[1; 3]; []; [2; 4; 0]] Sample.fresh)) /\
  let w' := snd (episodes [[1; 3]; []; [2; 4; 0]] Sample.fresh) in
  epoch_counter (env w') = Py.len [[1; 3]; []; [2; 4; 0]] - 1 /\
  iteration_counter (env w') = Py.len (default [] (last [[1; 3]; []; [2; 4; 0]])) /\
  Py.len (error_memory (env w')) = iteration_counter (env w') /\
  (forall a v x v',
     step a v = (Raise x, v') ->
     epoch_counter (env v') = epoch_counter (env v) /\
     iteration_counter (env v') = iteration_counter (env v) /\
     error_memory (env v') = error_memory (env v)).
Proof.
  assert (H : episodes [[1; 3]; []; [2; 4; 0]] Sample.fresh
              = (Ok [((-30, -90), (-60, -90)); ((15, 0), (15, 0)); ((-15, 90), (0, 90))],
                 snd (episodes [[1; 3]; []; [2; 4; 0]] Sample.fresh)))
    by (apply (run_pair (episodes [[1; 3]; []; [2; 4; 0]]) Sample.fresh);
        vm_compute; reflexivity).
  split; [exact init_sample|]. split; [exact H|].
  exact (counters_count Sample.data false false (Sample.gen Sample.draws)
           Sample.fresh _ [[1; 3]; []; [2; 4; 0]] _ init_sample H).
Defined.

(** ** Bonus and direction *)

Lemma distance_orders_error_ok : distance_orders_error = true.
Proof. vm_compute. reflexivity. Qed.

Lemma closer_error (t1 p1 t2 p2 : Z) :
  t1 ∈ tilts -> p1 ∈ pans -> t2 ∈ tilts -> p2 ∈ pans ->
  closer t1 p1 t2 p2 ->
  (normalized_squared_error t2 p2 <? normalized_squared_error t1 p1)%float = true /\
  (normalized_squared_error t1 p1 <? normalized_squared_error t2 p2)%float = false.
Proof.
  intros Ht1 Hp1 Ht2 Hp2 Hc.
  pose proof distance_orders_error_ok as H. unfold distance_orders_error in H.
  apply andb_prop in H as [H _]. apply andb_prop in H as [HT HP].
  apply list_elem_of_In in Ht1, Hp1, Ht2, Hp2.
  destruct Hc as [[-> Hlt]|[-> Hlt]].
  - rewrite forallb_forall in HT. specialize (HT t1 Ht1).
    rewrite forallb_forall in HT. specialize (HT t2 Ht2).
    rewrite forallb_forall in HT. specialize (HT p1 Hp1).
    unfold tilt_orders_error in HT.
    destruct (Z.ltb_spec (Z.abs t2) (Z.abs t1)); [|lia].
    unfold smaller in HT. apply andb_prop in HT as [A B].
    apply negb_true_iff in B. split; assumption.
  - rewrite forallb_forall in HP. specialize (HP t1 Ht1).
    rewrite forallb_forall in HP. specialize (HP p1 Hp1).
    rewrite forallb_forall in HP. specialize (HP p2 Hp2).
    unfold pan_orders_error in HP.
    destruct (Z.ltb_spec (Z.abs p2) (Z.abs p1)); [|lia].
    unfold smaller in HP. apply andb_prop in HP as [A B].
    apply negb_true_iff in B. split; assumption.
Qed.

Lemma same_error (t p : Z) :
  t ∈ tilts -> p ∈ pans ->
  (normalized_squared_error t p <? normalized_squared_error t p)%float = false.
Proof.
  intros Ht Hp.
  pose proof distance_orders_error_ok as H. unfold distance_orders_error in H.
  apply andb_prop in H as [_ H].
  apply negb_true_iff. exact (on_grid_spec _ H t p Ht Hp).
Qed.

(** X7: from the third step of an episode on, a step that has brought the
    camera closer to the centre along an axis gets the bonus 0.1, one that has
    taken it farther gets -0.15, and one that has left it where it was (a
    stay, or a move the edge absorbed) gets none. *)
Theorem bonus_follows_distance (a b : Z) (w w1 w2 : world) (o1 : outcome)
    (obs : image) (reward : float) (done : bool) (i : info) :
  step a w = (Ok o1, w1) ->
  step b w1 = (Ok (obs, reward, done, i), w2) ->
  error_memory (env w) <> [] ->
  exists t1 p1 t2 p2,
    Py.getitem tilts (current_tilt (env w1)) = Ok t1 /\
    Py.getitem pans (current_pan (env w1)) = Ok p1 /\
    Py.getitem tilts (current_tilt (env w2)) = Ok t2 /\
    Py.getitem pans (current_pan (env w2)) = Ok p2 /\
    let base := calc_reward (normalized_squared_error t2 p2) in
    (closer t1 p1 t2 p2 -> reward = (base + 0.1)%float) /\
    (closer t2 p2 t1 p1 -> reward = (base + -0.15)%float) /\
    (t2 = t1 /\ p2 = p1 -> reward = base).
Proof.
  intros H1 H2 Hmem.
  apply step_Ok in H1 as (_ & t1 & p1 & fpe1 & fte1 & v1 & err1 & r1 & H1).
  cbv zeta in H1. destruct H1 as (Ht1 & Hp1 & _ & _ & _ & He1 & _ & _ & ->).
  apply step_Ok in H2 as (_ & t2 & p2 & fpe2 & fte2 & v2 & err2 & r2 & H2).
  cbv zeta in H2. destruct H2 as (Ht2 & Hp2 & _ & _ & _ & He2 & Hs & Ho & ->).
  injection Ho as _ -> _ _.
  rewrite calc_error_spec in He1, He2. injection He1 as <-. injection He2 as <-.
  cbn [env error_memory] in Hs.
  destruct (error_memory (env w)) as [|first front]; [congruence|].
  rewrite <- app_assoc in Hs. cbn [app] in Hs.
  rewrite shape_long in Hs. injection Hs as <-.
  destruct (perform_frame b
              {| env := mkEnv (persons (env w)) (testing (env w))
                          (current_tilt (env (snd (perform a w))))
                          (current_pan (env (snd (perform a w))))
                          (current_person (env w))
                          ((first :: front) ++ [normalized_squared_error t1 p1])
                          (sub_mean v1.1) v1.2 (epoch_counter (env w))
                          (iteration_counter (env w) + 1) (init_pan_error (env w))
                          (init_tilt_error (env w)) fpe1 fte1 (state_text t1 p1)
                          (text_of_action a) (interactive (env w));
                 np_random := np_random w |}) as (ct & cp & Hw & _).
  rewrite Hw in Ht2, Hp2. read_fields.
  exists t1, p1, t2, p2. cbn [env current_tilt current_pan].
  rewrite Hw. read_fields.
  pose proof (getitem_elem_of _ _ _ Ht1) as I1.
  pose proof (getitem_elem_of _ _ _ Hp1) as J1.
  pose proof (getitem_elem_of _ _ _ Ht2) as I2.
  pose proof (getitem_elem_of _ _ _ Hp2) as J2.
  repeat split; try assumption.
  - intros Hc. destruct (closer_error t1 p1 t2 p2 I1 J1 I2 J2 Hc) as [-> _].
    reflexivity.
  - intros Hc. destruct (closer_error t2 p2 t1 p1 I2 J2 I1 J1 Hc) as [-> ->].
    reflexivity.
  - intros [-> ->]. rewrite (same_error t1 p1 I1 J1). reflexivity.
Qed.

Lemma bonus_follows_distance_witness :
  let w := snd (step 0 Sample.started) in
  let w1 := snd (step 0 w) in
  let w2 := snd (step 2 w1) in
  step 0 w = (Ok ([[(7, -30, -90)]], 0%float, false, ∅), w1) /\
  step 2 w1 = (Ok ([[(7, -15, -90)]], 0.1%float, false, ∅), w2) /\
  error_memory (env w) <> [] /\
  exists t1 p1 t2 p2,
    Py.getitem tilts (current_tilt (env w1)) = Ok t1 /\
    Py.getitem pans (current_pan (env w1)) = Ok p1 /\
    Py.getitem tilts (current_tilt (env w2)) = Ok t2 /\
    Py.getitem pans (current_pan (env w2)) = Ok p2 /\
    let base := calc_reward (normalized_squared_error t2 p2) in
    (closer t1 p1 t2 p2 -> 0.1%float = (base + 0.1)%float) /\
    (closer t2 p2 t1 p1 -> 0.1%float = (base + -0.15)%float) /\
    (t2 = t1 /\ p2 = p1 -> 0.1%float = base).
Proof.
  intros w w1 w2.
  assert (H1 : step 0 w = (Ok ([[(7, -30, -90)]], 0%float, false, ∅), w1))
    by (apply (run_pair (step 0) w); vm_compute; reflexivity).
  assert (H2 : step 2 w1 = (Ok ([[(7, -15, -90)]], 0.1%float, false, ∅), w2))
    by (apply (run_pair (step 2) w1); vm_compute; reflexivity).
  assert (Hm : error_memory (env w) <> []).
  { assert (E : error_memory (env w) = [1.25%float]) by (vm_compute; reflexivity).
    rewrite E. discriminate. }
  split; [exact H1|]. split; [exact H2|]. split; [exact Hm|].
  exact (bonus_follows_distance 0 2 w w1 w2 _ _ _ _ _ H1 H2 Hm).
Defined.

(** ** Where the reward is *)

Lemma rewards_are_sparse : on_grid reward_is_sparse = true.
Proof. vm_compute. reflexivity. Qed.

(** X8: before the bonus, the reward is 0 at every cell more than one grid
    step from the centre on some axis, positive at the nine cells around the
    centre, and largest at the centre alone. *)
Theorem reward_near_centre_only (tilt pan : Z) (error top : float) :
  tilt ∈ tilts -> pan ∈ pans ->
  calc_error tilt pan = Ok error -> calc_error 0 0 = Ok top ->
  (Z.abs tilt <= 15 /\ Z.abs pan <= 15 -> (0 <? calc_reward error)%float = true) /\
  (~ (Z.abs tilt <= 15 /\ Z.abs pan <= 15) -> calc_reward error = 0%float) /\
  (calc_reward error <=? calc_reward top)%float = true /\
  ((tilt, pan) <> (0, 0) -> (calc_reward error <? calc_reward top)%float = true).
Proof.
  intros Ht Hp He Htop. rewrite calc_error_spec in He, Htop.
  injection He as <-. injection Htop as <-.
  pose proof (on_grid_spec _ rewards_are_sparse tilt pan Ht Hp) as H.
  unfold reward_is_sparse in H. cbv zeta in H.
  apply andb_prop in H as [H H4]. apply andb_prop in H as [H H3].
  apply andb_prop in H as [H1 H2]. apply eqb_prop in H1.
  split.
  { intros [A B].
    assert (N : near_centre tilt pan = true)
      by (unfold near_centre; apply andb_true_intro; split; apply Z.leb_le; assumption).
    rewrite N in H2. exact H2. }
  split.
  { intros Hn.
    assert (N : near_centre tilt pan = false).
    { unfold near_centre. apply andb_false_iff.
      destruct (Z.leb_spec (Z.abs tilt) 15) as [A|A]; [|left; reflexivity].
      destruct (Z.leb_spec (Z.abs pan) 15) as [B|B]; [|right; reflexivity].
      exfalso. apply Hn. split; assumption. }
    rewrite N in H1. cbn [negb] in H1.
    unfold calc_reward. cbv zeta. rewrite H1. reflexivity. }
  split; [exact H3|].
  intros Hne.
  destruct (Z.eqb_spec tilt 0) as [->|Et]; [|exact H4].
  destruct (Z.eqb_spec pan 0) as [->|Ep]; [congruence | exact H4].
Qed.

Lemma reward_near_centre_only_witness :
  15 ∈ tilts /\ -15 ∈ pans /\
  calc_error 15 (-15) = Ok 0.090277777777777776%float /\
  calc_error 0 0 = Ok 0%float /\
  (Z.abs 15 <= 15 /\ Z.abs (-15) <= 15 ->
   (0 <? calc_reward 0.090277777777777776)%float = true) /\
  (~ (Z.abs 15 <= 15 /\ Z.abs (-15) <= 15) ->
   calc_reward 0.090277777777777776 = 0%float) /\
  (calc_reward 0.090277777777777776 <=? calc_reward 0)%float = true /\
  ((15, -15) <> (0, 0) ->
   (calc_reward 0.090277777777777776 <? calc_reward 0)%float = true).
Proof.
  assert (Ht : 15 ∈ tilts) by (apply list_elem_of_In; simpl; tauto).
  assert (Hp : -15 ∈ pans) by (apply list_elem_of_In; simpl; tauto).
  assert (He : calc_error 15 (-15) = Ok 0.090277777777777776%float)
    by (vm_compute; reflexivity).
  assert (H0 : calc_error 0 0 = Ok 0%float) by (vm_compute; reflexivity).
  split; [exact Ht|]. split; [exact Hp|]. split; [exact He|]. split; [exact H0|].
  exact (reward_near_centre_only 15 (-15) _ _ Ht Hp He H0).
Defined.

(** ** What [render] shows *)

Lemma map_fixes {A : Type} (f : A -> A) (P : A -> Prop) (l : list A) :
  (forall x, P x -> f x = x) -> Forall P l -> map f l = l.
Proof.
  intros Hf H. induction H as [|x l Hx _ IH]; cbn [map]; [reflexivity|].
  rewrite (Hf x Hx), IH. reflexivity.
Qed.

(** Adding the mean vector back and casting to bytes restores a frame of
    bytes. *)
Lemma restore_frame (frame : image) :
  bytes frame -> uint8 (add_mean (sub_mean frame)) = frame.
Proof.
  intros H. unfold uint8, add_mean, sub_mean. rewrite !map_map.
  eapply map_fixes; [|exact H].
  intros row Hrow. rewrite !map_map.
  eapply map_fixes; [|exact Hrow].
  intros [[r g] b] (Hr & Hg & Hb). cbn.
  rewrite !Z.sub_add, !Z.mod_small by lia. reflexivity.
Qed.

(** X9: after a [step] that has returned, [render] leaves the object as it
    is and shows, in this order: in the window 'View' the display image of
    the current view with the angles the camera is at and the name of the
    action drawn on it, and in the window 'CNN Input' the frame of the
    dataset itself when its channels are bytes; then it waits for a key when
    the object is interactive and for a millisecond otherwise. *)
Theorem render_after_step (a : Z) (w w' : world) (o : outcome) :
  step a w = (Ok o, w') ->
  exists tilt pan v,
    Py.getitem tilts (current_tilt (env w')) = Ok tilt /\
    Py.getitem pans (current_pan (env w')) = Ok pan /\
    lookup_views (persons (env w)) (current_person (env w)) tilt pan = Ok v /\
    (bytes (fst v) ->
     render w' =
       (Ok ([Imshow "View"
               (mkPicture (snd v)
                  [("Tilt/Pan: " +:+ Py.str tilt +:+ "/" +:+ Py.str pan, (10, 25));
                   ("Sel. Action: " +:+ text_of_action a, (10, 50))]);
             Imshow "CNN Input" (mkPicture (fst v) [])]
            ++ (if interactive (env w)
                then [Print "Press any key to proceed"; WaitKey 0]
                else [WaitKey 1])),
        w')).
Proof.
  intros H. apply step_Ok in H as (_ & tilt & pan & fpe & fte & v & err & r & H).
  cbv zeta in H. destruct H as (Ht & Hp & _ & _ & Hv & _ & _ & _ & ->).
  exists tilt, pan, v. cbn [env current_tilt current_pan].
  split; [exact Ht|]. split; [exact Hp|]. split; [exact Hv|].
  intros Hb. unfold render, bind, self, ret, put_text.
  cbn [env render_observation current_state_text action_text observation interactive
       pixels drawn_texts app].
  rewrite (restore_frame _ Hb). reflexivity.
Qed.

Lemma render_after_step_witness :
  step 4 Sample.started
    = (Ok ([[(7, -30, -75)]], 0%float, false, ∅), snd (step 4 Sample.started)) /\
  exists tilt pan v,
    Py.getitem tilts (current_tilt (env (snd (step 4 Sample.started)))) = Ok tilt /\
    Py.getitem pans (current_pan (env (snd (step 4 Sample.started)))) = Ok pan /\
    lookup_views (persons (env Sample.started)) (current_person (env Sample.started))
      tilt pan = Ok v /\
    (bytes (fst v) ->
     render (snd (step 4 Sample.started)) =
       (Ok ([Imshow "View"
               (mkPicture (snd v)
                  [("Tilt/Pan: " +:+ Py.str tilt +:+ "/" +:+ Py.str pan, (10, 25));
                   ("Sel. Action: " +:+ text_of_action 4, (10, 50))]);
             Imshow "CNN Input" (mkPicture (fst v) [])]
            ++ (if interactive (env Sample.started)
                then [Print "Press any key to proceed"; WaitKey 0]
                else [WaitKey 1])),
        snd (step 4 Sample.started))).
Proof.
  assert (H : step 4 Sample.started
              = (Ok ([[(7, -30, -75)]], 0%float, false, ∅), snd (step 4 Sample.started)))
    by (apply (run_pair (step 4) Sample.started); vm_compute; reflexivity).
  split; [exact H|].
  exact (render_after_step 4 Sample.started _ _ H).
Defined.

(** ** Text and statistics follow the camera *)

Lemma step_in_sync (a : Z) (w : world) :
  in_grid (env w) -> in_sync (env w) -> in_sync (env (snd (step a w))).
Proof.
  intros Hg (t0 & p0 & Ht0 & Hp0 & Lt & Lp & Htxt).
  destruct (angles_after_perform a w Hg) as (tilt & pan & Ht & Hp).
  destruct (step a w) as [[o|x] w1] eqn:H; cbn [snd].
  - apply step_Ok in H as (_ & t & p & fpe & fte & v & err & r & H).
    cbv zeta in H. destruct H as (Ht' & Hp' & Hsp & Hst & _ & _ & _ & _ & ->).
    apply setitem_ok_last in Hsp as (f1 & x1 & _ & ->).
    apply setitem_ok_last in Hst as (f2 & x2 & _ & ->).
    exists t, p. cbn [env current_tilt current_pan final_tilt_error final_pan_error
                      current_state_text].
    rewrite !last_snoc. repeat split; assumption || reflexivity.
  - apply step_Raise_cause in H. cbv zeta in H.
    destruct H as [(_ & _ & ->)|(_ & H)].
    { exists t0, p0. repeat split; assumption. }
    destruct H as [(H & _)|[(t & _ & H & _)|(t & p & Ht' & Hp' & H)]];
      [congruence | congruence |].
    assert (t = tilt) by congruence. assert (p = pan) by congruence. subst t p.
    assert (Nt : final_tilt_error (env w) <> [])
      by (intros E; rewrite E in Lt; discriminate).
    assert (Np : final_pan_error (env w) <> [])
      by (intros E; rewrite E in Lp; discriminate).
    destruct (nonempty_snoc _ Np) as (fpf & fpx & Efp).
    destruct (nonempty_snoc _ Nt) as (ftf & ftx & Eft).
    pose proof (setitem_last fpf fpx pan) as Sp. rewrite <- Efp in Sp.
    pose proof (setitem_last ftf ftx tilt) as St. rewrite <- Eft in St.
    destruct H as [(H & _)|(fpe & Hsp & H)]; [congruence|].
    destruct H as [(H & _)|(fte & Hst & _ & ->)]; [congruence|].
    rewrite Sp in Hsp. rewrite St in Hst. injection Hsp as <-. injection Hst as <-.
    exists tilt, pan. read_fields. rewrite !last_snoc.
    repeat split; assumption || reflexivity.
Qed.

Lemma attempts_in_sync (actions : list Z) (w : world) :
  in_grid (env w) -> in_sync (env w) -> in_sync (env (attempts actions w)).
Proof.
  revert w. induction actions as [|a rest IH]; intros w Hg Hs; simpl.
  - exact Hs.
  - apply IH; [apply step_in_grid, Hg | apply step_in_sync; assumption].
Qed.

(** X10: after a [reset] that has returned, whatever [step]s follow and
    however each of them ends, the state text and the last entries of the
    final-error sequences show the angles at the indices the camera is at. *)
Theorem camera_in_sync (w w0 : world) (obs : image) (actions : list Z) :
  reset w = (Ok obs, w0) ->
  exists tilt pan,
    Py.getitem tilts (current_tilt (env (attempts actions w0))) = Ok tilt /\
    Py.getitem pans (current_pan (env (attempts actions w0))) = Ok pan /\
    last (final_tilt_error (env (attempts actions w0))) = Some tilt /\
    last (final_pan_error (env (attempts actions w0))) = Some pan /\
    current_state_text (env (attempts actions w0)) = state_text tilt pan.
Proof.
  intros H. pose proof (reset_in_grid _ _ _ H) as Hg.
  apply (attempts_in_sync actions w0 Hg).
  apply reset_Ok in H. cbv zeta in H.
  destruct (drawn (testing (env w)) (np_random w)) as [[[person ct] cp] g'].
  destruct H as (tilt & pan & v & Ht & Hp & _ & _ & ->).
  exists tilt, pan. cbn [env current_tilt current_pan final_tilt_error final_pan_error
                         current_state_text].
  rewrite !last_snoc. repeat split; assumption || reflexivity.
Qed.

Lemma camera_in_sync_witness :
  reset Gaps.fresh = (Ok [[(7, -30, -90)]], Gaps.started) /\
  exists tilt pan,
    Py.getitem tilts (current_tilt (env (attempts [3; 1; 8; 2] Gaps.started))) = Ok tilt /\
    Py.getitem pans (current_pan (env (attempts [3; 1; 8; 2] Gaps.started))) = Ok pan /\
    last (final_tilt_error (env (attempts [3; 1; 8; 2] Gaps.started))) = Some tilt /\
    last (final_pan_error (env (attempts [3; 1; 8; 2] Gaps.started))) = Some pan /\
    current_state_text (env (attempts [3; 1; 8; 2] Gaps.started)) = state_text tilt pan.
Proof.
  assert (H : reset Gaps.fresh = (Ok [[(7, -30, -90)]], Gaps.started))
    by (unfold Gaps.started; apply (run_pair reset Gaps.fresh);
        vm_compute; reflexivity).
  split; [exact H|].
  exact (camera_in_sync Gaps.fresh Gaps.started _ [3; 1; 8; 2] H).
Defined.

(** ** Observations and the declared space *)

(** X11: the observation a [reset] returns lies within the bounds declared
    for the observation space exactly when its frame has no red channel above
    236, no green channel above 241 and no blue channel below 4 (the frame's
    channels being bytes); nothing clips the rest. *)
Theorem observation_within_space (w w' : world) (obs : image) :
  reset w = (Ok obs, w') ->
  exists tilt pan v,
    Py.getitem tilts (current_tilt (env w')) = Ok tilt /\
    Py.getitem pans (current_pan (env w')) = Ok pan /\
    lookup_views (persons (env w)) (current_person (env w')) tilt pan = Ok v /\
    (bytes (fst v) ->
     (within_space obs <->
      Forall (Forall (fun px : pixel =>
                        let '(r, g, b) := px in r <= 236 /\ g <= 241 /\ 4 <= b))
        (fst v))).
Proof.
  intros H. apply reset_Ok in H. cbv zeta in H.
  destruct (drawn (testing (env w)) (np_random w)) as [[[person ct] cp] g'].
  destruct H as (tilt & pan & v & Ht & Hp & Hv & -> & ->).
  exists tilt, pan, v. cbn [env current_tilt current_pan current_person].
  split; [exact Ht|]. split; [exact Hp|]. split; [exact Hv|].
  intros Hb. unfold within_space, sub_mean, bytes in *.
  induction Hb as [|row rows Hrow _ IH]; cbn [map].
  - split; constructor.
  - split; intros F; inversion F as [|? ? F1 F2]; subst; constructor;
      try (apply IH; assumption).
    + clear -Hrow F1. induction Hrow as [|[[r g] b] l Hx _ IHl]; cbn [map] in *.
      * constructor.
      * inversion F1 as [|? ? G1 G2]; subst. constructor; [|apply IHl; assumption].
        cbn in G1. lia.
    + clear -Hrow F1. induction Hrow as [|[[r g] b] l Hx _ IHl]; cbn [map] in *.
      * constructor.
      * inversion F1 as [|? ? G1 G2]; subst. constructor; [|apply IHl; assumption].
        cbn. lia.
Qed.

Lemma observation_within_space_witness :
  reset Sample.fresh = (Ok [[(7, -30, -90)]], Sample.started) /\
  exists tilt pan v,
    Py.getitem tilts (current_tilt (env Sample.started)) = Ok tilt /\
    Py.getitem pans (current_pan (env Sample.started)) = Ok pan /\
    lookup_views (persons (env Sample.fresh)) (current_person (env Sample.started))
      tilt pan = Ok v /\
    (bytes (fst v) ->
     (within_space [[(7, -30, -90)]] <->
      Forall (Forall (fun px : pixel =>
                        let '(r, g, b) := px in r <= 236 /\ g <= 241 /\ 4 <= b))
        (fst v))).
Proof.
  assert (H : reset Sample.fresh = (Ok [[(7, -30, -90)]], Sample.started))
    by (unfold Sample.started; apply (run_pair reset Sample.fresh);
        vm_compute; reflexivity).
  split; [exact H|].
  exact (observation_within_space Sample.fresh Sample.started _ H).
Defined.
